(** * Traffic_Violation_Final: the map utility layer and the page router

    A shallow embedding of [map_visualization.py] (class [MapVisualizer]) and of
    the routing block of [main.py], followed by the properties of the
    specification that are stated about them.

    Conventions of the embedding.
    - A pandas DataFrame is a list of column names and a list of rows; row
      labels (the pandas index) are positional.  Column names are looked up by
      their first occurrence.
    - Numbers (int64 and float64 cells, coordinates, offsets) are rationals.
      The sum of an int64 column wraps around as int64 addition does; the
      binary64 rounding of float64 arithmetic is outside the model, and no
      property below rests on a float64 sum or mean that rounding can change.
    - A DataFrame that Python code can mutate lives in a store, addressed by a
      reference; a function that receives a DataFrame receives its reference.
    - Exceptions are values of [Result].
    - A function under [st.cache_data] is its body behind the cache: the key
      is built from the arguments before the body is run. *)

From Stdlib Require Import ZArith QArith String Ascii List Bool Lia DecimalString.
From stdpp Require Import gmap strings list fin_maps.
Import ListNotations.

Open Scope string_scope.
Open Scope Z_scope.

(* ===================================================================== *)
(** * Part I: definitions *)
(* ===================================================================== *)

(** ** pandas: values, frames, the operations the module calls *)
Module Pandas.

(** One cell of a table. [VNull] is a missing value (NaN, None, NaT);
    [VTimestamp t] is a timestamp, [t] nanoseconds after the epoch. *)
Inductive value : Type :=
| VNum (q : Q)
| VStr (s : string)
| VTimestamp (t : Z)
| VNull.

Record DataFrame : Type := { columns : list string; rows : list (list value) }.

(** The store of DataFrame objects. *)
Abbreviation heap := (gmap positive DataFrame).

Inductive exn : Type :=
| KeyError (key : string)
| IndexError
| ValueError
| TypeError
| OSError (what : string).

Inductive Result (A : Type) : Type :=
| Ok (a : A)
| Raise (e : exn).
Arguments Ok {A} a.
Arguments Raise {A} e.

#[global] Instance Result_ret : MRet Result := fun _ a => Ok a.
#[global] Instance Result_bind : MBind Result := fun _ _ k m =>
  match m with
  | Ok a => k a
  | Raise e => Raise e
  end.

(** [c in df.columns], and the position of [c] when it is one. *)
Fixpoint column_index (c : string) (cols : list string) : option nat :=
  match cols with
  | [] => None
  | c' :: cs => if String.eqb c c' then Some 0%nat else S <$> column_index c cs
  end.

(** A row shorter than the header reads as missing values. *)
Definition cell (i : nat) (r : list value) : value := nth i r VNull.

(** [df[c]] *)
Definition get_column (i : nat) (df : DataFrame) : list value :=
  map (cell i) (rows df).

(** [df[c] = s] *)
Definition set_column (i : nat) (s : list value) (df : DataFrame) : DataFrame :=
  {| columns := columns df;
     rows := zip_with (fun r v => <[i:=v]> r) (rows df) s |}.

(** [df[mask]]: boolean indexing. *)
Fixpoint take_where {A : Type} (mask : list bool) (l : list A) : list A :=
  match mask, l with
  | b :: mask', a :: l' => if b then a :: take_where mask' l' else take_where mask' l'
  | _, _ => []
  end.

Definition select (mask : list bool) (df : DataFrame) : DataFrame :=
  {| columns := columns df; rows := take_where mask (rows df) |}.

(** *** [pd.to_datetime(s, errors='coerce')] *)
Section ToDatetime.
(** The parser pandas applies to a cell that is neither a timestamp nor
    missing; it sees the whole column, from which pandas infers the format.
    [None] is a cell pandas cannot parse.  The parser itself is library code
    and stays a parameter. *)
Variable parse_datetime : list value -> value -> option Z.

Definition to_datetime_cell (column : list value) (v : value) : value :=
  match v with
  | VTimestamp t => VTimestamp t
  | VNull => VNull
  | _ => match parse_datetime column v with
         | Some t => VTimestamp t
         | None => VNull
         end
  end.

Definition to_datetime (column : list value) : list value :=
  map (to_datetime_cell column) column.
End ToDatetime.

(** [s >= d] and [s <= d] for a timestamp [d]: a missing value compares false
    both ways.  The columns compared below have just been through
    [to_datetime], so they hold timestamps and missing values only. *)
Definition ge_timestamp (d : Z) (v : value) : bool :=
  match v with
  | VTimestamp t => d <=? t
  | _ => false
  end.

Definition le_timestamp (d : Z) (v : value) : bool :=
  match v with
  | VTimestamp t => t <=? d
  | _ => false
  end.

(** *** [df.groupby(by)] *)

Definition is_null (v : value) : bool :=
  match v with
  | VNull => true
  | _ => false
  end.

(** Equality of group keys. *)
Definition key_eqb (a b : value) : bool :=
  match a, b with
  | VNum p, VNum q => Qeq_bool p q
  | VStr s, VStr t => String.eqb s t
  | VTimestamp s, VTimestamp t => s =? t
  | _, _ => false
  end.

Definition rank (v : value) : Z :=
  match v with
  | VNum _ => 0
  | VTimestamp _ => 1
  | VStr _ => 2
  | VNull => 3
  end.

(** The order of the groups in the result ([sort=True]): numbers by value,
    strings by code point, numbers before strings. *)
Definition key_leb (a b : value) : bool :=
  match a, b with
  | VNum p, VNum q => Qle_bool p q
  | VStr s, VStr t => String.leb s t
  | VTimestamp s, VTimestamp t => s <=? t
  | _, _ => rank a <=? rank b
  end.

Fixpoint insert_key (k : value) (l : list value) : list value :=
  match l with
  | [] => [k]
  | k' :: l' => if key_leb k k' then k :: l else k' :: insert_key k l'
  end.

Definition sort_keys (l : list value) : list value := fold_right insert_key [] l.

(** First occurrences, in order. *)
Fixpoint uniques (ks : list value) : list value :=
  match ks with
  | [] => []
  | k :: ks' => k :: List.filter (fun k' => negb (key_eqb k k')) (uniques ks')
  end.

(** The group keys: the distinct values of the key column, missing values
    dropped ([dropna=True]), sorted. *)
Definition group_keys (ks : list value) : list value :=
  sort_keys (uniques (List.filter (fun k => negb (is_null k)) ks)).

(** The rows of one group. *)
Definition group_rows (i : nat) (df : DataFrame) (k : value) : list (list value) :=
  List.filter (fun r => key_eqb k (cell i r)) (rows df).

(** A Series with a named index, as a group-wise reduction returns it. *)
Record Series : Type := { index_name : string; items : list (value * value) }.

Inductive reduction : Type := Sum | Mean | Max.

Definition is_numeric (v : value) : bool :=
  match v with
  | VNum _ | VNull => true
  | _ => false
  end.

(** The numbers of a group; missing values are skipped ([skipna=True]). *)
Definition numbers (cells : list value) : list Q :=
  omap (fun v => match v with VNum q => Some q | _ => None end) cells.

Definition total (qs : list Q) : Q := fold_right Qplus 0%Q qs.

Definition Qmax2 (a b : Q) : Q := if Qle_bool a b then b else a.

(** A group of a float64 column.  The sum and the mean stand for binary64
    results, without their rounding; whether the result is missing, and which
    element is the largest, involve no arithmetic. *)
Definition reduce_numeric (how : reduction) (cells : list value) : value :=
  match how, numbers cells with
  | Sum, qs => VNum (Qred (total qs))
  | Mean, [] => VNull
  | Mean, qs => VNum (Qred (total qs / inject_Z (Z.of_nat (length qs))))
  | Max, [] => VNull
  | Max, q :: qs => VNum (fold_left Qmax2 qs q)
  end.

(** The range of int64, and the integer of that range an integer is
    congruent to modulo 2^64: what int64 addition gives when it overflows. *)
Definition int64_min : Z := - 2 ^ 63.
Definition int64_max : Z := 2 ^ 63 - 1.

Definition wrap_int64 (n : Z) : Z := (n + 2 ^ 63) mod 2 ^ 64 - 2 ^ 63.

(** A cell of an int64 column: an integer of the range.  The type of a
    numeric column is read off its cells, as [read_csv] infers it: int64 when
    every cell is such an integer, float64 when a value is missing or has a
    fraction. *)
Definition is_int64 (v : value) : bool :=
  match v with
  | VNum q => (Qden (Qred q) =? 1)%positive
              && (int64_min <=? Qnum (Qred q)) && (Qnum (Qred q) <=? int64_max)
  | _ => false
  end.

Definition int_value (v : value) : Z :=
  match v with
  | VNum q => Qnum (Qred q)
  | _ => 0
  end.

(** A group of an int64 column: its sum is an int64 sum; its largest element
    is one of its elements, its mean a float64 as for any numeric column. *)
Definition reduce_int64 (how : reduction) (cells : list value) : value :=
  match how with
  | Sum => VNum (inject_Z (wrap_int64 (fold_right Z.add 0 (map int_value cells))))
  | _ => reduce_numeric how cells
  end.

(** A group of a numeric column, by the type of the column. *)
Definition reduce_column (how : reduction) (column group : list value) : value :=
  if forallb is_int64 column then reduce_int64 how group
  else reduce_numeric how group.

Section GroupBy.
(** What pandas does when it reduces a group of a column that holds
    something else than numbers (strings, timestamps): given the reduction,
    the column and the group.  Library code, kept as a parameter. *)
Variable reduce_object : reduction -> list value -> list value -> Result value.

Definition reduce (how : reduction) (column group : list value) : Result value :=
  if forallb is_numeric column then Ok (reduce_column how column group)
  else reduce_object how column group.

(** [df.groupby(by)[metric].sum()], [.mean()], [.max()] *)
Definition groupby_reduce (df : DataFrame) (by_ metric : string) (how : reduction)
  : Result Series :=
  match column_index by_ (columns df) with
  | None => Raise (KeyError by_)
  | Some i =>
      match column_index metric (columns df) with
      | None => Raise (KeyError metric)
      | Some j =>
          its ← mapM (fun k => v ← reduce how (get_column j df) (map (cell j) (group_rows i df k));
                                mret (k, v))
                     (group_keys (get_column i df));
          mret {| index_name := by_; items := its |}
      end
  end.
End GroupBy.

(** [df.groupby(by).size()] *)
Definition groupby_size (df : DataFrame) (by_ : string) : Result Series :=
  match column_index by_ (columns df) with
  | None => Raise (KeyError by_)
  | Some i =>
      mret {| index_name := by_;
              items := map (fun k => (k, VNum (inject_Z (Z.of_nat (length (group_rows i df k))))))
                           (group_keys (get_column i df)) |}
  end.

(** [s.reset_index(name=n)]: the index becomes the first column; a name equal
    to the index name cannot be inserted. *)
Definition reset_index (s : Series) (name : string) : Result DataFrame :=
  if String.eqb name (index_name s) then Raise ValueError
  else Ok {| columns := [index_name s; name];
             rows := map (fun kv => [fst kv; snd kv]) (items s) |}.

End Pandas.

(** ** map_visualization.py *)

(** [get_theme_colors()] *)
Definition get_theme_colors : gmap string string :=
  list_to_map
    [ ("PRIMARY", "#807A81"); ("ACCENT1", "#6C5C7C"); ("ACCENT2", "#A08692");
      ("NEUTRAL1", "#E1C8C2"); ("NEUTRAL2", "#E8DED9"); ("TEXT", "#FFFFFF");
      ("BACKGROUND", "#1A1623"); ("INPUT_BG", "#2A2533"); ("white", "#E8DED9") ].

(** The keyword arguments of [fig.add_annotation]. *)
Module Annotation.
Record t : Type := {
  x : Q;
  y : Q;
  text : string;
  showarrow : bool;
  font_size : Z;
  font_color : string;
  bgcolor : string;
  bordercolor : string;
  borderwidth : Z;
  borderpad : Z;
  xanchor : string;
  yanchor : string
}.
End Annotation.

(** A Plotly figure: its annotations, and everything else it holds. *)
Record Figure (Body : Type) : Type := {
  body : Body;
  annotations : list Annotation.t
}.
Arguments body {Body} f.
Arguments annotations {Body} f.

(** [fig.add_annotation(...)] *)
Definition add_annotation {Body : Type} (a : Annotation.t) (fig : Figure Body) : Figure Body :=
  {| body := body fig; annotations := annotations fig ++ [a] |}.

(** How a call that works on a figure in place ends: it returns the figure, or
    an exception leaves with the figure as it was at that moment. *)
Inductive outcome (Body : Type) : Type :=
| Returned (fig : Figure Body)
| Raised (e : Pandas.exn) (fig : Figure Body).
Arguments Returned {Body} fig.
Arguments Raised {Body} e fig.

(** What [load_geojsons] does to the outside world, in order. *)
Inductive io_event : Type :=
| HttpGet (url : string)
| OpenFile (path : string)
| Warning (message : string).

(** ** Streamlit: [st.cache_data] *)
Module Streamlit.
Import Pandas.

(** An argument of a call, as the cache looks at it. *)
Inductive argument : Type :=
| Instance (class_name : string)
| Text (s : string)
| Number (n : Z).

Inductive cache_error : Type := UnhashableParamError (param : string).

(** How a call of a cached function ends: the cache could not build its key,
    or the call gives a value, computed or cached, or the function raised. *)
Inductive answer (A : Type) : Type :=
| Unhashable (e : cache_error)
| Value (a : A)
| Exception (e : exn).
Arguments Unhashable {A} e.
Arguments Value {A} a.
Arguments Exception {A} e.

(** What an argument contributes to the key; the text stands for the digest
    Streamlit computes.  Streamlit hashes the values it knows, strings and
    numbers among them; for an instance of a class of the program, as
    [MapVisualizer] is, it finds no hash. *)
Definition hash_argument (a : argument) : option string :=
  match a with
  | Instance _ => None
  | Text s => Some ("str:" +:+ s)
  | Number n => Some ("int:" +:+ (if n <? 0 then "-" else EmptyString)
                      +:+ NilZero.string_of_uint (N.to_uint (Z.abs_N n)))
  end.

(** The key of a call: the hashes of its arguments, those of a parameter
    whose name starts with an underscore left out.  The first argument that
    cannot be hashed raises [UnhashableParamError]. *)
Fixpoint cache_key (params : list (string * argument)) : cache_error + list string :=
  match params with
  | [] => inr []
  | (name, a) :: rest =>
      if String.prefix "_" name then cache_key rest
      else
        match hash_argument a with
        | None => inl (UnhashableParamError name)
        | Some k =>
            match cache_key rest with
            | inl e => inl e
            | inr ks => inr (k :: ks)
            end
        end
  end.

(** [st.cache_data(ttl=...)] around a function, called with [params] at the
    time [now]: [body] is what the function does and gives when it is run.
    The key is built first; a value stored under it for less than [ttl] is
    returned without running the function; otherwise the function runs, and
    its value, when it returns one, is stored. *)
Definition cache_data {E A : Type} (ttl : Z) (params : list (string * argument))
    (body : list E * Result A) (now : Z) (cache : gmap (list string) (Z * A))
  : list E * answer A * gmap (list string) (Z * A) :=
  match cache_key params with
  | inl e => ([], Unhashable e, cache)
  | inr key =>
      let computed :=
        match snd body with
        | Ok a => (fst body, Value a, <[key := (now, a)]> cache)
        | Raise e => (fst body, Exception e, cache)
        end in
      match cache !! key with
      | Some (stored, a) => if now <? stored + ttl then ([], Value a, cache) else computed
      | None => computed
      end
  end.

End Streamlit.

Module MapVisualizer.
Import Pandas.

(** [self.colors], set by [__init__]. *)
Definition colors : gmap string string := get_theme_colors.

(** *** [load_geojsons] *)
Section LoadGeojsons.
Variable Json : Type.
(** [requests.get(url).json()], and [json.load] of an opened file: each
    gives a document or raises. *)
Variable http_get_json : string -> Result Json.
Variable read_json_file : string -> Result Json.

Definition world_url : string :=
  "https://raw.githubusercontent.com/holtzy/D3-graph-gallery/master/DATA/world.geojson".

Definition india_warning : string :=
  "⚠️ india_states.geojson not found. Download from: https://github.com/udit-001/india-maps-data".

(** The function under the decorator: the events, and the pair
    [(world_geo, india_geo)] or the exception. *)
Definition load_geojsons_wrapped : list io_event * Result (Json * option Json) :=
  match http_get_json world_url with
  | Raise e => ([HttpGet world_url], Raise e)
  | Ok world_geo =>
      match read_json_file "india_states.geojson" with
      | Ok india_geo =>
          ([HttpGet world_url; OpenFile "india_states.geojson"],
           Ok (world_geo, Some india_geo))
      | Raise _ =>
          ([HttpGet world_url; OpenFile "india_states.geojson"; Warning india_warning],
           Ok (world_geo, None))
      end
  end.

(** The method as the class has it, under [@st.cache_data(ttl=3600)]: its one
    parameter is [self], which takes part in the key of the cache. *)
Definition load_geojsons (self : Streamlit.argument) (now : Z)
    (cache : gmap (list string) (Z * (Json * option Json)))
  : list io_event * Streamlit.answer (Json * option Json)
    * gmap (list string) (Z * (Json * option Json)) :=
  Streamlit.cache_data 3600 [("self", self)] load_geojsons_wrapped now cache.
End LoadGeojsons.

(** *** [get_state_coordinates]: state name to (latitude, longitude) *)
Definition get_state_coordinates : gmap string (Q * Q) :=
  list_to_map
    [ ("Karnataka", (12.97, 77.59)%Q);
      ("Punjab", (30.90, 75.85)%Q);
      ("Maharashtra", (19.07, 72.87)%Q);
      ("West Bengal", (22.57, 88.36)%Q);
      ("Tamil Nadu", (13.08, 80.27)%Q);
      ("Delhi", (28.61, 77.23)%Q);
      ("Uttar Pradesh", (26.85, 80.95)%Q);
      ("Gujarat", (23.02, 72.57)%Q);
      ("Rajasthan", (27.59, 75.62)%Q);
      ("Madhya Pradesh", (22.85, 77.99)%Q);
      ("Andhra Pradesh", (15.91, 78.16)%Q);
      ("Telangana", (18.11, 79.01)%Q);
      ("Bihar", (25.59, 85.54)%Q);
      ("Jharkhand", (23.61, 85.28)%Q);
      ("Odisha", (20.95, 85.09)%Q);
      ("Assam", (26.20, 92.94)%Q) ].

(** *** [add_state_labels] *)

(** [s.upper()] on ASCII letters (the state names are ASCII). *)
Definition upper_ascii (c : ascii) : ascii :=
  let n := nat_of_ascii c in
  if ((97 <=? n) && (n <=? 122))%nat then ascii_of_nat (n - 32) else c.

Fixpoint upper (s : string) : string :=
  match s with
  | EmptyString => EmptyString
  | String c s' => String (upper_ascii c) (upper s')
  end.

(** [f"{value:,}"]: decimal digits in groups of three. *)
Fixpoint with_commas (digits : list ascii) : list ascii :=
  match digits with
  | [] => []
  | d :: rest =>
      d :: (if ((0 <? length rest) && (length rest mod 3 =? 0))%nat
            then "," %char :: with_commas rest
            else with_commas rest)
  end.

Definition format_thousands (n : Z) : string :=
  (if n <? 0 then "-" else EmptyString) +:+
  string_of_list_ascii
    (with_commas (list_ascii_of_string (NilZero.string_of_uint (N.to_uint (Z.abs_N n))))).

(** [state in state_coords] and [state_coords[state]]: only a string can be a
    key of the dictionary. *)
Definition lookup_state (state : value) : option (string * (Q * Q)) :=
  match state with
  | VStr s => (fun c => (s, c)) <$> get_state_coordinates !! s
  | _ => None
  end.

Definition label_text (state : string) (value : Z) : string :=
  "<b style='color:#94FEFE;font-size:16px'>" +:+ upper (substring 0 2 state) +:+ "</b><br>" +:+
  "<span style='color:#80FAD6;font-size:12px'>" +:+ format_thousands value +:+ "</span>".

Definition state_label (state : string) (lat lon : Q) (value : Z) (offset_x offset_y : Q)
  : Annotation.t :=
  {| Annotation.x := lon + offset_x;
     Annotation.y := lat + offset_y;
     Annotation.text := label_text state value;
     Annotation.showarrow := false;
     Annotation.font_size := 14;
     Annotation.font_color := default "#E8DED9" (colors !! "white");
     Annotation.bgcolor := "rgba(0,20,60,0.95)";
     Annotation.bordercolor := "#6C5C7C";
     Annotation.borderwidth := 2;
     Annotation.borderpad := 8;
     Annotation.xanchor := "center";
     Annotation.yanchor := "middle" |}.

Section AddStateLabels.
Context {Body : Type}.
(** [int(s)] for a string [s]; [None] when Python rejects the literal. *)
Variable int_of_string : string -> option Z.

(** [int(v)]: a number is truncated toward zero, a missing value (NaN) and
    a string that is no integer literal raise [ValueError]. *)
Definition py_int (v : value) : Result Z :=
  match v with
  | VNum q => Ok (Qnum q ÷ Z.pos (Qden q))
  | VStr s => match int_of_string s with
              | Some n => Ok n
              | None => Raise ValueError
              end
  | VTimestamp _ => Raise TypeError
  | VNull => Raise ValueError
  end.

(** The body of the loop over [state_data.iterrows()], for the rows that
    are left; [location] is the position of the column ['Location']. *)
Fixpoint label_rows (location : option nat) (rs : list (list value))
    (offset_x offset_y : Q) (fig : Figure Body) : outcome Body :=
  match rs with
  | [] => Returned fig
  | row :: rest =>
      match location with
      | None => Raised (KeyError "Location") fig
      | Some i =>
          match lookup_state (cell i row) with
          | None => label_rows location rest offset_x offset_y fig
          | Some (state, (lat, lon)) =>
              match row !! 1%nat with
              | None => Raised IndexError fig
              | Some v =>
                  match py_int v with
                  | Raise e => Raised e fig
                  | Ok value =>
                      label_rows location rest offset_x offset_y
                        (add_annotation (state_label state lat lon value offset_x offset_y) fig)
                  end
              end
          end
      end
  end.

Definition add_state_labels (fig : Figure Body) (state_data : DataFrame)
    (offset_x offset_y : Q) : outcome Body :=
  label_rows (column_index "Location" (columns state_data)) (rows state_data)
             offset_x offset_y fig.
End AddStateLabels.

(** *** [filter_dataframe_by_date] *)
Section FilterByDate.
Variable parse_datetime : list value -> value -> option Z.

(** [df] is the reference the caller passes; the result is the reference
    returned and the store after the call.  [None] only for a reference
    that points to nothing. *)
Definition filter_dataframe_by_date (df : positive) (start_date end_date : Z)
    (date_column : string) (h : heap) : option (positive * heap) :=
  d ← h !! df;
  match column_index date_column (columns d) with
  | None => Some (df, h)
  | Some i =>
      (* df[date_column] = pd.to_datetime(df[date_column], errors='coerce') *)
      let d' := set_column i (to_datetime parse_datetime (get_column i d)) d in
      let h' := <[df := d']> h in
      (* df[(df[date_column] >= start_date) & (df[date_column] <= end_date)] *)
      let mask := zip_with andb (map (ge_timestamp start_date) (get_column i d'))
                                (map (le_timestamp end_date) (get_column i d')) in
      let result := fresh (dom h') in
      Some (result, <[result := select mask d']> h')
  end.
End FilterByDate.

(** *** [aggregate_by_location] *)
Section AggregateByLocation.
Variable reduce_object : reduction -> list value -> list value -> Result value.

Definition aggregate_by_location (df : DataFrame)
    (location_column metric_column aggregation : string) : Result DataFrame :=
  if String.eqb aggregation "sum" then
    s ← groupby_reduce reduce_object df location_column metric_column Sum;
    reset_index s (metric_column +:+ "_Total")
  else if String.eqb aggregation "mean" then
    s ← groupby_reduce reduce_object df location_column metric_column Mean;
    reset_index s (metric_column +:+ "_Avg")
  else if String.eqb aggregation "count" then
    s ← groupby_size df location_column;
    reset_index s "Count"
  else if String.eqb aggregation "max" then
    s ← groupby_reduce reduce_object df location_column metric_column Max;
    reset_index s (metric_column +:+ "_Max")
  else
    s ← groupby_reduce reduce_object df location_column metric_column Sum;
    reset_index s (metric_column +:+ "_Total").
End AggregateByLocation.

End MapVisualizer.

(** ** main.py *)
Module Main.
Import Pandas.

(** [load_data], under [st.cache_data]: the file is read once, and every call
    hands out a copy of the table read then, as a new object. *)
Definition load_data (cached : DataFrame) (h : heap) : positive * heap :=
  let df := fresh (dom h) in (df, <[df := cached]> h).

(** The options of the sidebar radio. *)
Definition navigation : list string :=
  [ "Home"; "Dashboard"; "Time Trend Analysis"; "Environment Analysis";
    "Vehicle Analysis"; "Driver Behaviour Analysis"; "Payment Analysis";
    "Map Visualisation"; "Report"; "About" ].

(** A call [app(df)] of the function [app] imported from [module]. *)
Inductive call : Type := App (module : string) (df : positive).

(** The routing block: the calls it makes for the selected [page]. *)
Definition routing (page : string) (df : positive) : list call :=
  if String.eqb page "Home" then [App "views._1_Home" df]
  else if String.eqb page "Dashboard" then [App "views._2_Dashboard" df]
  else if String.eqb page "Time Trend Analysis" then [App "views._3_Time_Trend_Analysis" df]
  else if String.eqb page "Environment Analysis" then [App "views._4_Environment_Analysis" df]
  else if String.eqb page "Vehicle Analysis" then [App "views._5_Vehicle_Analysis" df]
  else if String.eqb page "Driver Behaviour Analysis" then [App "views._6_Driver_Behaviour_Analysis" df]
  else if String.eqb page "Payment Analysis" then [App "views._7_Payment_Analysis" df]
  else if String.eqb page "Map Visualisation" then [App "views._8_Map_Visualisation" df]
  else if String.eqb page "Report" then [App "views._9_Report" df]
  else if String.eqb page "About" then [App "views._10_About" df]
  else [].

End Main.

(** ** map_visualization.py: the functions of the module *)
Module MapVisualization.
Import Pandas.

(** *** [create_comparison_table] *)

(** [df[columns_to_show]] for a list of names: the columns named, in the order
    of the list; a name that is no column raises [KeyError] (reported here
    with the first such name). *)
Definition getitem_columns (names : list string) (df : DataFrame) : Result DataFrame :=
  positions ← mapM (fun c => match column_index c (columns df) with
                             | Some i => Ok i
                             | None => Raise (KeyError c)
                             end) names;
  mret {| columns := names;
          rows := map (fun r => map (fun i => cell i r) positions) (rows df) |}.

Section ComparisonTable.
(** How pandas orders the rows of a table by the column at a position, in
    ascending or descending order; it raises on cells it cannot compare.
    Library code, kept as a parameter. *)
Variable sort_rows : nat -> bool -> list (list value) -> Result (list (list value)).

(** [df.sort_values(by=c, ascending=a)] *)
Definition sort_values (df : DataFrame) (by_ : string) (ascending : bool) : Result DataFrame :=
  match column_index by_ (columns df) with
  | None => Raise (KeyError by_)
  | Some i =>
      rs ← sort_rows i ascending (rows df);
      mret {| columns := columns df; rows := rs |}
  end.

(** [columns_to_show] is [None] or a list, [sort_by] is [None] or a name; an
    empty list and an empty name are false in a condition, like [None].  The
    closing [reset_index(drop=True)] renumbers the rows, which are positional
    here. *)
Definition create_comparison_table (df : DataFrame) (columns_to_show : option (list string))
    (sort_by : option string) (ascending : bool) : Result DataFrame :=
  df1 ← match columns_to_show with
        | Some (c :: cs) => getitem_columns (c :: cs) df
        | _ => Ok df
        end;
  df2 ← match sort_by with
        | Some (String a by_) => sort_values df1 (String a by_) ascending
        | _ => Ok df1
        end;
  mret df2.
End ComparisonTable.

(** *** [_nav_cards] *)

(** The calls of Streamlit the function makes. *)
Inductive ui_event : Type :=
| Columns (n : nat)
| Button (label key : string).

Definition nav_cards : list (string * string) :=
  [ ("🚦", "Violation Type Intelligence");
    ("🚗", "Vehicle Class Hotspots");
    ("👤", "Driver Demographics Map");
    ("☁️", "Weather-Violation Nexus");
    ("🗺️", "State-Level Risk Matrix");
    ("🛣️", "Infrastructure Danger Zones");
    ("⏰", "Peak Hour Violation Peaks");
    ("💰", "Fine Severity Distribution") ].

(** [f"nav_{i}"] *)
Definition nav_key (i : nat) : string := "nav_" +:+ NilZero.string_of_uint (Nat.to_uint i).

Definition nav_button (i : nat) (card : string * string) : ui_event :=
  Button (fst card +:+ " " +:+ snd card) (nav_key i).

(** How the function ends: it returns, or the call [st.experimental_rerun()]
    ends it, with the rerun of the script where Streamlit has that function,
    with [AttributeError] where it has it no more. *)
Inductive ending : Type :=
| Finished
| Rerun
| AttributeError.

(** [st.experimental_rerun()] *)
Definition experimental_rerun (available : bool) : ending :=
  if available then Rerun else AttributeError.

(** The loop over [enumerate(nav_cards)], from the card numbered [i] on.
    [available] tells whether the Streamlit at hand has
    [experimental_rerun]; [clicked key] is what [st.button] returns for the
    button of that key; [scroll_to] is [st.session_state.scroll_to].  The
    result is the calls made, [scroll_to] at the end, and how the loop
    ends. *)
Fixpoint nav_loop (available : bool) (clicked : string -> bool) (i : nat)
    (cards : list (string * string)) (scroll_to : option nat)
  : list ui_event * option nat * ending :=
  match cards with
  | [] => ([], scroll_to, Finished)
  | card :: rest =>
      if clicked (nav_key i)
      then ([nav_button i card], Some i, experimental_rerun available)
      else
        match nav_loop available clicked (S i) rest scroll_to with
        | (events, scroll_to', e) => (nav_button i card :: events, scroll_to', e)
        end
  end.

(** [session] is the entry [scroll_to] of the session state: [None] when the
    key is not there yet. *)
Definition _nav_cards (available : bool) (clicked : string -> bool)
    (session : option (option nat)) : list ui_event * option nat * ending :=
  let scroll_to := match session with
                   | None => None
                   | Some s => s
                   end in
  match nav_loop available clicked 0 nav_cards scroll_to with
  | (events, scroll_to', e) => (Columns 8 :: events, scroll_to', e)
  end.

End MapVisualization.

(** ** main.py: the script from top to bottom *)
Module Script.
Import Pandas.

(** What the script asks of Streamlit, in order.  The texts of the markup
    injected are constants of the script. *)
Inductive st_event : Type :=
| SetPageConfig
| ApplyTheme
| BootstrapIcons
| Style (css : string)
| SidebarToggleScript
| SidebarRadio (options : list string)
| SidebarDivider
| SidebarCaption (text : string)
| Render (c : Main.call).

(** The outside world of one run: what [pd.read_csv] gives for the data
    file, what [apply_theme] of [utils] does, what reading
    [styles/main.css] gives, and the label selected in the sidebar. *)
Record world : Type := {
  read_csv : Result DataFrame;
  apply_theme : Result unit;
  read_css : Result string;
  selected : string
}.

(** One run: the calls made, how the script itself ends, and the store when
    it does.  The call of a page is recorded, not run: what the page does with
    the table, an exception of its own included, is not part of the result. *)
Definition run (w : world) (h : heap) : list st_event * Result unit * heap :=
  match read_csv w with
  | Raise e => ([SetPageConfig], Raise e, h)
  | Ok table =>
      let (df, h1) := Main.load_data table h in
      match apply_theme w with
      | Raise e => ([SetPageConfig; ApplyTheme], Raise e, h1)
      | Ok _ =>
          let style := match read_css w with
                       | Ok css => [Style css]
                       | Raise _ => []
                       end in
          (([SetPageConfig; ApplyTheme; BootstrapIcons] ++ style ++
            [SidebarToggleScript; SidebarRadio Main.navigation; SidebarDivider;
             SidebarCaption "Smart Traffic Violation Pattern Detector"] ++
            map Render (Main.routing (selected w) df))%list,
           Ok tt, h1)
      end
  end.

End Script.


(** ** Vocabulary of the properties *)
Module Reading.
Import Pandas.

(** The date of a row: its cell in the date column, as [to_datetime] reads it
    in a column [column]. *)
Definition row_date (parse_datetime : list value -> value -> option Z)
    (column : list value) (i : nat) (r : list value) : value :=
  to_datetime_cell parse_datetime column (cell i r).

(** A row after the date column has been overwritten with its dates. *)
Definition coerce_row (parse_datetime : list value -> value -> option Z)
    (column : list value) (i : nat) (r : list value) : list value :=
  <[i := row_date parse_datetime column i r]> r.

(** [start_date <= v <= end_date], for a cell [v]. *)
Definition in_range (start_date end_date : Z) (v : value) : bool :=
  ge_timestamp start_date v && le_timestamp end_date v.

(** The row is dated [t]. *)
Definition dated_on (parse_datetime : list value -> value -> option Z)
    (column : list value) (i : nat) (t : Z) (r : list value) : bool :=
  match row_date parse_datetime column i r with
  | VTimestamp t' => t' =? t
  | _ => false
  end.

(** The table once its date column has been overwritten with its dates. *)
Definition dated_frame (parse_datetime : list value -> value -> option Z)
    (i : nat) (d : DataFrame) : DataFrame :=
  {| columns := columns d;
     rows := map (coerce_row parse_datetime (get_column i d) i) (rows d) |}.

(** The rows of the table whose date lies in the range. *)
Definition kept_rows (parse_datetime : list value -> value -> option Z)
    (i : nat) (start_date end_date : Z) (d : DataFrame) : list (list value) :=
  List.filter
    (fun r => in_range start_date end_date (row_date parse_datetime (get_column i d) i r))
    (rows d).

(** The table made of the rows in the range, with their dates. *)
Definition filtered_frame (parse_datetime : list value -> value -> option Z)
    (i : nat) (start_date end_date : Z) (d : DataFrame) : DataFrame :=
  {| columns := columns d;
     rows := map (coerce_row parse_datetime (get_column i d) i)
                 (kept_rows parse_datetime i start_date end_date d) |}.

(** A cell a call of [to_datetime] leaves as it is. *)
Definition is_datetime (v : value) : bool :=
  match v with
  | VTimestamp _ | VNull => true
  | _ => false
  end.

(** What a two-column aggregated table gives for the location [k]: the second
    cell of the first row whose first cell is [k]. *)
Definition lookup_location (out : DataFrame) (k : value) : option value :=
  cell 1 <$> List.find (fun r => key_eqb k (cell 0 r)) (rows out).

(** A location [k] has a row in the table. *)
Definition occurs (i : nat) (df : DataFrame) (k : value) : bool :=
  existsb (fun r => key_eqb k (cell i r)) (rows df).


Definition location_count (i : nat) (df : DataFrame) (k : value) : nat :=
  length (List.filter (fun r => key_eqb k (cell i r)) (rows df)).

(** A row of [state_data] that [add_state_labels] has a label for. *)
Definition recognized (i : nat) (row : list value) : bool :=
  match MapVisualizer.lookup_state (cell i row) with
  | Some _ => true
  | None => false
  end.

(** The label of a recognized row whose second cell is the integer [n]. *)
Definition expected_label (int_of_string : string -> option Z) (i : nat)
    (offset_x offset_y : Q) (row : list value) : option Annotation.t :=
  match MapVisualizer.lookup_state (cell i row), row !! 1%nat with
  | Some (state, (lat, lon)), Some v =>
      match MapVisualizer.py_int int_of_string v with
      | Ok n => Some (MapVisualizer.state_label state lat lon n offset_x offset_y)
      | Raise _ => None
      end
  | _, _ => None
  end.

(** The second cell of the row is one [int] accepts. *)
Definition has_integer_metric (int_of_string : string -> option Z) (row : list value) : bool :=
  match row !! 1%nat with
  | Some v => match MapVisualizer.py_int int_of_string v with
              | Ok _ => true
              | Raise _ => false
              end
  | None => false
  end.

(** The page labels and the module each one is routed to, as the routing
    block pairs them. *)
Definition views : list (string * string) :=
  [ ("Home", "views._1_Home");
    ("Dashboard", "views._2_Dashboard");
    ("Time Trend Analysis", "views._3_Time_Trend_Analysis");
    ("Environment Analysis", "views._4_Environment_Analysis");
    ("Vehicle Analysis", "views._5_Vehicle_Analysis");
    ("Driver Behaviour Analysis", "views._6_Driver_Behaviour_Analysis");
    ("Payment Analysis", "views._7_Payment_Analysis");
    ("Map Visualisation", "views._8_Map_Visualisation");
    ("Report", "views._9_Report");
    ("About", "views._10_About") ].

(** The metric values of the rows of location [k], the missing ones left
    out. *)
Definition location_values (i j : nat) (df : DataFrame) (k : value) : list Q :=
  numbers (map (cell j) (List.filter (fun r => key_eqb k (cell i r)) (rows df))).

(** The rows that have a location. *)
Definition located_rows (i : nat) (df : DataFrame) : list (list value) :=
  List.filter (fun r => negb (is_null (cell i r))) (rows df).

(** The first column of an aggregated table: its locations. *)
Definition locations (out : DataFrame) : list value := map (cell 0) (rows out).

(** Two group keys are different locations. *)
Definition different (a b : value) : Prop := key_eqb a b = false.

(** The label of a location that carries its number of rows, when the
    location is a state of the coordinate table. *)
Definition count_label (i : nat) (df : DataFrame) (offset_x offset_y : Q) (k : value)
  : option Annotation.t :=
  match MapVisualizer.lookup_state k with
  | Some (state, (lat, lon)) =>
      Some (MapVisualizer.state_label state lat lon (Z.of_nat (location_count i df k))
              offset_x offset_y)
  | None => None
  end.

(** The figure a call on a figure ends with, returned or not. *)
Definition figure_of {Body : Type} (o : outcome Body) : Figure Body :=
  match o with
  | Returned fig => fig
  | Raised _ fig => fig
  end.

(** The buttons of the cards, numbered from [i]. *)
Fixpoint nav_buttons (i : nat) (cards : list (string * string))
  : list MapVisualization.ui_event :=
  match cards with
  | [] => []
  | card :: rest => MapVisualization.nav_button i card :: nav_buttons (S i) rest
  end.

(** The call of the script that injects the stylesheet. *)
Definition is_style (ev : Script.st_event) : bool :=
  match ev with
  | Script.Style _ => true
  | _ => false
  end.

End Reading.

(** ** Sample data *)
Module Samples.
Import Pandas.

(** A date parser for the examples: ISO calendar dates [YYYY-MM-DD], read as
    midnight of that day; a number is a count of nanoseconds. *)
Definition digit_of (c : ascii) : option Z :=
  let n := Z.of_nat (nat_of_ascii c) in
  if (48 <=? n) && (n <=? 57) then Some (n - 48) else None.

Fixpoint number_of (cs : list ascii) (acc : Z) : option Z :=
  match cs with
  | [] => Some acc
  | c :: cs' => d ← digit_of c; number_of cs' (10 * acc + d)
  end.

Definition is_leap (y : Z) : bool :=
  ((y mod 4 =? 0) && negb (y mod 100 =? 0)) || (y mod 400 =? 0).

Definition days_in_month (y m : Z) : Z :=
  if m =? 2 then (if is_leap y then 29 else 28)
  else if (m =? 4) || (m =? 6) || (m =? 9) || (m =? 11) then 30
  else 31.

(** Days from 1970-01-01 to the civil date [y]-[m]-[d]. *)
Definition days_from_civil (y m d : Z) : Z :=
  let y' := if m <=? 2 then y - 1 else y in
  let era := y' / 400 in
  let yoe := y' - era * 400 in
  let doy := (153 * (if 2 <? m then m - 3 else m + 9) + 2) / 5 + d - 1 in
  let doe := yoe * 365 + yoe / 4 - yoe / 100 + doy in
  era * 146097 + doe - 719468.

Definition nanoseconds_per_day : Z := 86400000000000.

Definition iso_date (s : string) : option Z :=
  match list_ascii_of_string s with
  | [y1; y2; y3; y4; s1; m1; m2; s2; d1; d2] =>
      if Ascii.eqb s1 "-" && Ascii.eqb s2 "-" then
        y ← number_of [y1; y2; y3; y4] 0;
        m ← number_of [m1; m2] 0;
        d ← number_of [d1; d2] 0;
        if (1 <=? m) && (m <=? 12) && (1 <=? d) && (d <=? days_in_month y m)
        then Some (days_from_civil y m d * nanoseconds_per_day)
        else None
      else None
  | _ => None
  end.

Definition parse_iso (column : list value) (v : value) : option Z :=
  match v with
  | VStr s => iso_date s
  | VNum q => Some (Qnum q ÷ Z.pos (Qden q))
  | _ => None
  end.

(** Midnight of a day of January 2024. *)
Definition january_2024 (day : Z) : Z := (19722 + day) * nanoseconds_per_day.

(** A table as [load_data] reads it: the dates are still strings. *)
Definition violations : DataFrame :=
  {| columns := ["Date"; "Location"; "Fine_Amount"];
     rows := [ [VStr "2024-01-01"; VStr "Delhi"; VNum 500];
               [VStr "2024-01-02"; VStr "Punjab"; VNum 200];
               [VStr "2024-01-04"; VStr "Delhi"; VNum 1000] ] |}.

(** A table with a date that is none, and what [to_datetime] makes of it. *)
Definition violations_dirty : DataFrame :=
  {| columns := ["Date"; "Fine_Amount"];
     rows := [ [VStr "2024-01-02"; VNum 500];
               [VStr "unknown"; VNum 200] ] |}.


(** The table of the aggregation example. *)
Definition fines : DataFrame :=
  {| columns := ["loc"; "fine"];
     rows := [ [VStr "A"; VNum 10]; [VStr "A"; VNum 5]; [VStr "B"; VNum 7] ] |}.



(** A reduction of non-numeric columns, for the examples: it refuses them. *)
Definition refuse_objects (how : reduction) (column group : list value) : Result value :=
  Raise TypeError.

(** An [int] for the examples: no string is an integer literal. *)
Definition no_literal (s : string) : option Z := None.

(** Per-state counts, one of a place the coordinate table does not know. *)
Definition state_counts : DataFrame :=
  {| columns := ["Location"; "Count"];
     rows := [ [VStr "Delhi"; VNum 1234]; [VStr "Atlantis"; VNull]; [VStr "Punjab"; VNum 56] ] |}.

(** A table in which the only fine of Delhi is missing. *)
Definition unpaid : DataFrame :=
  {| columns := ["Location"; "Fine_Amount"];
     rows := [ [VStr "Delhi"; VNull] ] |}.

(** Its per-state means, as [aggregate_by_location] returns them. *)
Definition state_means : DataFrame :=
  {| columns := ["Location"; "Fine_Amount_Avg"];
     rows := [ [VStr "Delhi"; VNull] ] |}.

Definition empty_figure : Figure unit := {| body := tt; annotations := [] |}.

(** The outside world of [load_geojsons]: a network that answers or not, and
    no file. *)
Definition online (url : string) : Result string := Ok "{world}".
Definition offline (url : string) : Result string := Raise (OSError "ConnectionError").
Definition no_file (path : string) : Result string := Raise (OSError "FileNotFoundError").

End Samples.


(* ===================================================================== *)
(** * Part II: properties *)
(* ===================================================================== *)

Import Pandas Reading.

(** ** Lists *)

Lemma take_where_both {A : Type} (f g : A -> bool) (l : list A) :
  take_where (zip_with andb (map f l) (map g l)) l = List.filter (fun a => f a && g a) l.
Proof.
  induction l as [|a l IH]; simpl; [reflexivity|].
  rewrite IH. reflexivity.
Qed.

Lemma filter_map_swap {A B : Type} (p : B -> bool) (f : A -> B) (l : list A) :
  List.filter p (map f l) = map f (List.filter (fun a => p (f a)) l).
Proof.
  induction l as [|a l IH]; simpl; [reflexivity|].
  rewrite IH. destruct (p (f a)); reflexivity.
Qed.

Lemma cell_insert_eq (i : nat) (v : value) (r : list value) :
  (i < length r)%nat -> cell i (<[i:=v]> r) = v.
Proof.
  intros Hi. unfold cell. rewrite nth_lookup, list_lookup_insert_eq by exact Hi.
  reflexivity.
Qed.

Lemma cell_insert_ne (i j : nat) (v : value) (r : list value) :
  i <> j -> cell j (<[i:=v]> r) = cell j r.
Proof.
  intros Hij. unfold cell. rewrite !nth_lookup, list_lookup_insert_ne by exact Hij.
  reflexivity.
Qed.

Lemma cell_beyond (i : nat) (r : list value) :
  (length r <= i)%nat -> cell i r = VNull.
Proof. intros Hi. unfold cell. apply nth_overflow. exact Hi. Qed.

(** ** [filter_dataframe_by_date] *)
Section DateFilter.
Variable parse_datetime : list value -> value -> option Z.

Local Abbreviation filter_by_date := (MapVisualizer.filter_dataframe_by_date parse_datetime).

Lemma to_datetime_cell_datetime (column : list value) (v : value) :
  is_datetime v = true -> to_datetime_cell parse_datetime column v = v.
Proof. destruct v; simpl; intros H; congruence. Qed.

(** Reading the date column back after the assignment gives the dates. *)
Lemma cell_coerce_row (column : list value) (i : nat) (r : list value) :
  cell i (coerce_row parse_datetime column i r) = row_date parse_datetime column i r.
Proof.
  unfold coerce_row. destruct (le_lt_dec (length r) i) as [Hge|Hlt].
  - rewrite list_insert_ge by exact Hge.
    unfold row_date. rewrite (cell_beyond i r Hge). reflexivity.
  - apply cell_insert_eq. exact Hlt.
Qed.

Lemma coerce_row_other (column : list value) (i j : nat) (r : list value) :
  i <> j -> cell j (coerce_row parse_datetime column i r) = cell j r.
Proof. apply cell_insert_ne. Qed.


Lemma coerce_row_datetime (column : list value) (i : nat) (r : list value) :
  is_datetime (cell i r) = true -> coerce_row parse_datetime column i r = r.
Proof.
  intros Hdt. unfold coerce_row, row_date.
  rewrite (to_datetime_cell_datetime column _ Hdt).
  destruct (le_lt_dec (length r) i) as [Hge|Hlt].
  - apply list_insert_ge. exact Hge.
  - apply list_insert_id. unfold cell. rewrite nth_lookup.
    destruct (lookup_lt_is_Some_2 r i Hlt) as [v Hv]. rewrite Hv. reflexivity.
Qed.

(** The assignment [df[c] = to_datetime(df[c])], row by row. *)
Lemma set_column_to_datetime (column : list value) (i : nat) (rs : list (list value)) :
  zip_with (fun r v => <[i:=v]> r) rs (map (to_datetime_cell parse_datetime column) (map (cell i) rs))
  = map (coerce_row parse_datetime column i) rs.
Proof.
  induction rs as [|r rs IH]; simpl; [reflexivity|].
  rewrite IH. reflexivity.
Qed.

Lemma set_column_dated (i : nat) (d : DataFrame) :
  set_column i (to_datetime parse_datetime (get_column i d)) d = dated_frame parse_datetime i d.
Proof.
  unfold set_column, dated_frame, to_datetime. f_equal.
  unfold get_column at 2. apply set_column_to_datetime.
Qed.

Lemma select_dated (i : nat) (start_date end_date : Z) (d : DataFrame) :
  let d' := dated_frame parse_datetime i d in
  select (zip_with andb (map (ge_timestamp start_date) (get_column i d'))
                        (map (le_timestamp end_date) (get_column i d'))) d'
  = filtered_frame parse_datetime i start_date end_date d.
Proof.
  unfold select, filtered_frame, kept_rows, get_column at 1 2. simpl. f_equal.
  set (rs' := map (coerce_row parse_datetime (get_column i d) i) (rows d)).
  rewrite !map_map.
  rewrite (take_where_both (fun r => ge_timestamp start_date (cell i r))
                           (fun r => le_timestamp end_date (cell i r))).
  subst rs'. rewrite filter_map_swap. f_equal.
  apply filter_ext. intros r. rewrite cell_coerce_row. reflexivity.
Qed.

(** The call, when the column is there: the input object is overwritten with
    its dated form and the result is a new object. *)
Lemma filter_dataframe_by_date_present (h : heap) (df : positive) (d : DataFrame)
    (date_column : string) (i : nat) (start_date end_date : Z) :
  h !! df = Some d ->
  column_index date_column (columns d) = Some i ->
  let h1 := <[df := dated_frame parse_datetime i d]> h in
  filter_by_date df start_date end_date date_column h
  = Some (fresh (dom h1), <[fresh (dom h1) := filtered_frame parse_datetime i start_date end_date d]> h1).
Proof.
  intros Hdf Hcol. unfold MapVisualizer.filter_dataframe_by_date.
  rewrite Hdf. simpl. rewrite Hcol.
  rewrite set_column_dated, select_dated. reflexivity.
Qed.

Lemma fresh_not_allocated (h : heap) : h !! fresh (dom h) = None.
Proof. apply not_elem_of_dom. apply is_fresh. Qed.

(** The rows returned carry a date of the range. *)
Lemma filtered_frame_in_range (i : nat) (start_date end_date : Z) (d : DataFrame)
    (r' : list value) :
  In r' (rows (filtered_frame parse_datetime i start_date end_date d)) ->
  exists t, cell i r' = VTimestamp t /\ start_date <= t <= end_date.
Proof.
  simpl. intros Hin. apply in_map_iff in Hin. destruct Hin as (r & <- & Hr).
  unfold kept_rows in Hr. apply filter_In in Hr. destruct Hr as [_ Hrange].
  rewrite cell_coerce_row. unfold in_range in Hrange.
  destruct (row_date parse_datetime (get_column i d) i r) as [q|s|t|]; simpl in Hrange;
    try discriminate.
  exists t. split; [reflexivity|].
  apply andb_true_iff in Hrange. destruct Hrange as [H1 H2].
  apply Z.leb_le in H1. apply Z.leb_le in H2. lia.
Qed.

(** A dated row is returned exactly when its date is in the range. *)
Lemma filtered_frame_keeps (i : nat) (start_date end_date : Z) (d : DataFrame)
    (r : list value) (t : Z) :
  In r (rows d) ->
  row_date parse_datetime (get_column i d) i r = VTimestamp t ->
  In (coerce_row parse_datetime (get_column i d) i r)
     (rows (filtered_frame parse_datetime i start_date end_date d))
  <-> start_date <= t <= end_date.
Proof.
  intros Hr Hdate. split.
  - intros Hin. apply filtered_frame_in_range in Hin.
    destruct Hin as (t' & Ht' & Hrange).
    rewrite cell_coerce_row, Hdate in Ht'. congruence.
  - intros Hrange. simpl. apply in_map. unfold kept_rows. apply filter_In.
    split; [exact Hr|]. rewrite Hdate. unfold in_range. simpl.
    apply andb_true_iff. split; apply Z.leb_le; lia.
Qed.

(** C1. For a table that has the date column, the call with the range
    [day1, day3] returns a new table with the same columns in which a record
    dated [t] is present exactly when [day1 <= t <= day3] (both bounds
    included); and when every record is dated [day1], [day2] or [day4], with
    [day1 <= day2 <= day3 < day4], the table returned consists of exactly the
    records dated [day1] and [day2], in their order. *)
Theorem filter_dataframe_by_date_inclusive (h : heap) (df : positive) (d : DataFrame)
    (date_column : string) (i : nat) (day1 day3 : Z) :
  h !! df = Some d ->
  column_index date_column (columns d) = Some i ->
  exists result h' out,
    filter_by_date df day1 day3 date_column h = Some (result, h') /\
    h' !! result = Some out /\
    columns out = columns d /\
    (forall r t, In r (rows d) ->
       row_date parse_datetime (get_column i d) i r = VTimestamp t ->
       (In (coerce_row parse_datetime (get_column i d) i r) (rows out)
        <-> day1 <= t <= day3)) /\
    (forall day2 day4, day1 <= day2 -> day2 <= day3 -> day3 < day4 ->
       Forall (fun r => In (row_date parse_datetime (get_column i d) i r)
                           [VTimestamp day1; VTimestamp day2; VTimestamp day4]) (rows d) ->
       rows out = map (coerce_row parse_datetime (get_column i d) i)
                      (List.filter (fun r => dated_on parse_datetime (get_column i d) i day1 r
                                             || dated_on parse_datetime (get_column i d) i day2 r)
                                   (rows d))).
Proof.
  intros Hdf Hcol.
  eexists _, _, (filtered_frame parse_datetime i day1 day3 d).
  split; [apply (filter_dataframe_by_date_present h df d date_column i); assumption|].
  split; [apply lookup_insert_eq|].
  split; [reflexivity|].
  split; [intros r t; apply filtered_frame_keeps|].
  intros day2 day4 H12 H23 H34 Hall. simpl. f_equal. unfold kept_rows.
  apply filter_ext_in. intros r Hr.
  rewrite List.Forall_forall in Hall. specialize (Hall r Hr).
  unfold dated_on, in_range.
  destruct Hall as [E|[E|[E|[]]]]; rewrite <- E; simpl.
  - rewrite Z.eqb_refl. simpl. apply andb_true_iff. split; apply Z.leb_le; lia.
  - rewrite Z.eqb_refl, orb_true_r. apply andb_true_iff. split; apply Z.leb_le; lia.
  - replace (day4 <=? day3) with false by (symmetry; apply Z.leb_gt; lia).
    rewrite andb_false_r. symmetry. apply orb_false_iff.
    split; apply Z.eqb_neq; lia.
Qed.

(** C2. For a table without the date column the call returns the very object
    it was given, whatever the range, and the store is as before. *)
Theorem filter_dataframe_by_date_absent_column (h : heap) (df : positive) (d : DataFrame)
    (date_column : string) (start_date end_date : Z) :
  h !! df = Some d ->
  column_index date_column (columns d) = None ->
  filter_by_date df start_date end_date date_column h = Some (df, h).
Proof.
  intros Hdf Hcol. unfold MapVisualizer.filter_dataframe_by_date.
  rewrite Hdf. simpl. rewrite Hcol. reflexivity.
Qed.

(** C10. For a table that has the date column and for every range, a row
    whose date cell cannot be parsed (the parser rejects it, so that
    [to_datetime] makes it the null timestamp; likewise a row whose date is
    missing) is not among the rows selected and its record is not in the table
    returned; every record returned carries a timestamp of the range. *)
Theorem filter_dataframe_by_date_drops_unparseable (h : heap) (df : positive)
    (d : DataFrame) (date_column : string) (i : nat) (start_date end_date : Z) :
  h !! df = Some d ->
  column_index date_column (columns d) = Some i ->
  exists result h' out,
    filter_by_date df start_date end_date date_column h = Some (result, h') /\
    h' !! result = Some out /\
    rows out = map (coerce_row parse_datetime (get_column i d) i)
                   (kept_rows parse_datetime i start_date end_date d) /\
    (forall r, In r (rows d) ->
       is_datetime (cell i r) = false ->
       parse_datetime (get_column i d) (cell i r) = None ->
       ~ In r (kept_rows parse_datetime i start_date end_date d) /\
       ~ In (coerce_row parse_datetime (get_column i d) i r) (rows out)) /\
    (forall r, In r (rows d) ->
       row_date parse_datetime (get_column i d) i r = VNull ->
       ~ In r (kept_rows parse_datetime i start_date end_date d) /\
       ~ In (coerce_row parse_datetime (get_column i d) i r) (rows out)) /\
    (forall r', In r' (rows out) ->
       exists t, cell i r' = VTimestamp t /\ start_date <= t <= end_date).
Proof.
  intros Hdf Hcol.
  assert (Hnull : forall r, row_date parse_datetime (get_column i d) i r = VNull ->
            ~ In r (kept_rows parse_datetime i start_date end_date d) /\
            ~ In (coerce_row parse_datetime (get_column i d) i r)
                 (rows (filtered_frame parse_datetime i start_date end_date d))).
  { intros r Hdate. split.
    - unfold kept_rows. rewrite filter_In, Hdate. simpl. intros [_ Hf]. discriminate.
    - intros Hin. apply filtered_frame_in_range in Hin. destruct Hin as (t & Ht & _).
      rewrite cell_coerce_row, Hdate in Ht. discriminate. }
  eexists _, _, (filtered_frame parse_datetime i start_date end_date d).
  split; [apply (filter_dataframe_by_date_present h df d date_column i); assumption|].
  split; [apply lookup_insert_eq|].
  split; [reflexivity|].
  split; [|split].
  - intros r _ Hnd Hparse. apply Hnull. unfold row_date, to_datetime_cell.
    destruct (cell i r); simpl in Hnd; try discriminate; rewrite Hparse; reflexivity.
  - intros r _. apply Hnull.
  - apply filtered_frame_in_range.
Qed.


(** [load_data] hands out the cached table as a new object, whatever was done
    to the objects handed out before. *)
Lemma load_data_content (cached : DataFrame) (h : heap) :
  h !! fst (Main.load_data cached h) = None /\
  snd (Main.load_data cached h) !! fst (Main.load_data cached h) = Some cached /\
  (forall l d, h !! l = Some d -> snd (Main.load_data cached h) !! l = Some d).
Proof.
  unfold Main.load_data. simpl.
  split; [apply fresh_not_allocated|].
  split; [apply lookup_insert_eq|].
  intros l d Hl. rewrite lookup_insert_ne; [exact Hl|].
  intros E. rewrite <- E, fresh_not_allocated in Hl. discriminate.
Qed.

End DateFilter.

(** The range of the first days of January 2024 on the sample table: the
    records of the first and of the second are returned, the one of the fourth
    is not. *)
Lemma filter_dataframe_by_date_inclusive_witness :
  exists result h' out,
    MapVisualizer.filter_dataframe_by_date Samples.parse_iso 1%positive
      (Samples.january_2024 1) (Samples.january_2024 3) "Date"
      {[ 1%positive := Samples.violations ]} = Some (result, h') /\
    h' !! result = Some out /\
    rows out = [ [VTimestamp (Samples.january_2024 1); VStr "Delhi"; VNum 500];
                 [VTimestamp (Samples.january_2024 2); VStr "Punjab"; VNum 200] ].
Proof.
  destruct (filter_dataframe_by_date_inclusive Samples.parse_iso
              {[ 1%positive := Samples.violations ]} 1%positive Samples.violations
              "Date" 0%nat (Samples.january_2024 1) (Samples.january_2024 3)
              (lookup_singleton_eq _ _) eq_refl)
    as (result & h' & out & Hcall & Hout & _ & _ & Hdays).
  exists result, h', out. split; [exact Hcall|]. split; [exact Hout|].
  rewrite (Hdays (Samples.january_2024 2) (Samples.january_2024 4)).
  - reflexivity.
  - vm_compute. discriminate.
  - vm_compute. discriminate.
  - reflexivity.
  - repeat constructor; vm_compute; tauto.
Defined.

Lemma filter_dataframe_by_date_absent_column_witness :
  MapVisualizer.filter_dataframe_by_date Samples.parse_iso 1%positive
    (Samples.january_2024 1) (Samples.january_2024 3) "Timestamp"
    {[ 1%positive := Samples.violations ]}
  = Some (1%positive, {[ 1%positive := Samples.violations ]}).
Proof.
  apply (filter_dataframe_by_date_absent_column Samples.parse_iso _ _ Samples.violations).
  - apply lookup_singleton_eq.
  - reflexivity.
Defined.

Lemma filter_dataframe_by_date_drops_unparseable_witness :
  exists result h' out,
    MapVisualizer.filter_dataframe_by_date Samples.parse_iso 1%positive
      (Samples.january_2024 1) (Samples.january_2024 3) "Date"
      {[ 1%positive := Samples.violations_dirty ]} = Some (result, h') /\
    h' !! result = Some out /\
    rows out = [ [VTimestamp (Samples.january_2024 2); VNum 500] ] /\
    ~ In [VNull; VNum 200] (rows out).
Proof.
  destruct (filter_dataframe_by_date_drops_unparseable Samples.parse_iso
              {[ 1%positive := Samples.violations_dirty ]} 1%positive
              Samples.violations_dirty "Date" 0%nat
              (Samples.january_2024 1) (Samples.january_2024 3)
              (lookup_singleton_eq _ _) eq_refl)
    as (result & h' & out & Hcall & Hout & Hrows & Hparse & _ & _).
  exists result, h', out. split; [exact Hcall|]. split; [exact Hout|].
  split; [rewrite Hrows; reflexivity|].
  apply (Hparse [VStr "unknown"; VNum 200]).
  - right. left. reflexivity.
  - reflexivity.
  - reflexivity.
Defined.



(** ** [aggregate_by_location] *)

(** Group keys: [key_eqb] is an equivalence on the values that are not
    missing. *)
Lemma key_eqb_sym (a b : value) : key_eqb a b = key_eqb b a.
Proof.
  destruct a, b; simpl; try reflexivity.
  - apply Qeq_bool_comm.
  - apply String.eqb_sym.
  - apply Z.eqb_sym.
Qed.

Lemma key_eqb_trans (a b c : value) :
  key_eqb a b = true -> key_eqb b c = true -> key_eqb a c = true.
Proof.
  destruct a, b, c; simpl; try discriminate.
  - apply Qeq_bool_trans.
  - intros H1 H2. apply String.eqb_eq in H1. apply String.eqb_eq in H2.
    apply String.eqb_eq. congruence.
  - intros H1 H2. apply Z.eqb_eq in H1. apply Z.eqb_eq in H2. apply Z.eqb_eq. congruence.
Qed.

Lemma key_eqb_refl (a : value) : is_null a = false -> key_eqb a a = true.
Proof.
  destruct a; simpl; try discriminate; intros _.
  - apply Qeq_bool_refl.
  - apply String.eqb_refl.
  - apply Z.eqb_refl.
Qed.

Lemma key_eqb_not_null (a b : value) : key_eqb a b = true -> is_null b = false.
Proof. destruct a, b; simpl; congruence. Qed.

(** Equal keys select the same rows. *)
Lemma key_eqb_same (a b c : value) : key_eqb a b = true -> key_eqb a c = key_eqb b c.
Proof.
  intros Hab. destruct (key_eqb b c) eqn:Hbc.
  - apply (key_eqb_trans a b c); assumption.
  - destruct (key_eqb a c) eqn:Hac; [|reflexivity].
    rewrite key_eqb_sym in Hab. rewrite <- Hbc. symmetry.
    apply (key_eqb_trans b a c); assumption.
Qed.

Lemma group_rows_same (i : nat) (df : DataFrame) (a b : value) :
  key_eqb a b = true -> group_rows i df a = group_rows i df b.
Proof.
  intros Hab. unfold group_rows. apply filter_ext.
  intros r. apply key_eqb_same. exact Hab.
Qed.

Lemma In_insert_key (x k : value) (l : list value) :
  In x (insert_key k l) <-> x = k \/ In x l.
Proof.
  induction l as [|k' l IH]; simpl.
  - intuition congruence.
  - destruct (key_leb k k'); simpl; rewrite ?IH; intuition congruence.
Qed.

Lemma In_sort_keys (x : value) (l : list value) : In x (sort_keys l) <-> In x l.
Proof.
  induction l as [|k l IH]; simpl; [reflexivity|].
  rewrite In_insert_key, IH. intuition congruence.
Qed.

Lemma In_uniques (x : value) (l : list value) : In x (uniques l) -> In x l.
Proof.
  induction l as [|k l IH]; simpl; [tauto|].
  intros [E|Hin]; [left; exact E|].
  apply filter_In in Hin. right. apply IH. apply Hin.
Qed.

Lemma uniques_covers (k : value) (l : list value) :
  In k l -> key_eqb k k = true ->
  exists k', In k' (uniques l) /\ key_eqb k k' = true.
Proof.
  induction l as [|k0 l IH]; simpl; [tauto|].
  intros [E|Hin] Hrefl.
  - subst k0. exists k. split; [left; reflexivity|exact Hrefl].
  - destruct (IH Hin Hrefl) as (k' & Hk' & Hkk').
    destruct (key_eqb k0 k') eqn:E0.
    + exists k0. split; [left; reflexivity|].
      rewrite key_eqb_sym in E0. apply (key_eqb_trans k k' k0); assumption.
    + exists k'. split; [|exact Hkk'].
      right. apply filter_In. split; [exact Hk'|]. rewrite E0. reflexivity.
Qed.

(** The group keys are the values of the key column, each once up to
    [key_eqb]. *)
Lemma group_keys_covers (k : value) (ks : list value) :
  (exists k0, In k0 ks /\ key_eqb k k0 = true) ->
  exists k', In k' (group_keys ks) /\ key_eqb k k' = true.
Proof.
  intros (k0 & Hin & Hk). unfold group_keys.
  assert (Hnn : is_null k0 = false) by (apply (key_eqb_not_null k); exact Hk).
  assert (Hrefl : key_eqb k0 k0 = true) by (apply key_eqb_refl; exact Hnn).
  destruct (uniques_covers k0 (List.filter (fun k => negb (is_null k)) ks)) as (k' & Hk' & Hkk').
  - apply filter_In. split; [exact Hin|]. rewrite Hnn. reflexivity.
  - exact Hrefl.
  - exists k'. split; [apply In_sort_keys; exact Hk'|].
    apply (key_eqb_trans k k0 k'); assumption.
Qed.

Lemma group_keys_sub (k : value) (ks : list value) : In k (group_keys ks) -> In k ks.
Proof.
  unfold group_keys. intros Hin. apply (proj1 (In_sort_keys _ _)) in Hin. apply In_uniques in Hin.
  apply filter_In in Hin. apply Hin.
Qed.

Lemma occurs_true (i : nat) (df : DataFrame) (k : value) :
  occurs i df k = true ->
  exists k', In k' (group_keys (get_column i df)) /\ key_eqb k k' = true.
Proof.
  unfold occurs. intros H. apply existsb_exists in H. destruct H as (r & Hr & Hk).
  apply group_keys_covers. exists (cell i r). split; [|exact Hk].
  unfold get_column. apply in_map. exact Hr.
Qed.

Lemma occurs_false (i : nat) (df : DataFrame) (k k' : value) :
  occurs i df k = false -> In k' (group_keys (get_column i df)) -> key_eqb k k' = false.
Proof.
  unfold occurs. intros H Hin. apply group_keys_sub in Hin.
  unfold get_column in Hin. apply in_map_iff in Hin. destruct Hin as (r & <- & Hr).
  destruct (key_eqb k (cell i r)) eqn:E; [|reflexivity].
  rewrite <- H. symmetry. apply existsb_exists. exists r. split; assumption.
Qed.

(** Reading a two-column table built from a list of keys. *)
Lemma lookup_location_found (cols : list string) (f : value -> value)
    (keys : list value) (k : value) :
  (forall a b, key_eqb a b = true -> f a = f b) ->
  (exists k', In k' keys /\ key_eqb k k' = true) ->
  lookup_location {| columns := cols; rows := map (fun k' => [k'; f k']) keys |} k
  = Some (f k).
Proof.
  intros Hf. unfold lookup_location. simpl.
  induction keys as [|k0 keys IH]; intros (k' & Hin & Hk); [destruct Hin|].
  unfold cell in *. simpl. destruct (key_eqb k k0) eqn:E.
  - simpl. f_equal. symmetry. apply Hf. exact E.
  - apply IH. exists k'. split; [|exact Hk].
    destruct Hin as [E0|Hin]; [|exact Hin]. subst k0. congruence.
Qed.

Lemma lookup_location_missing (cols : list string) (f : value -> value)
    (keys : list value) (k : value) :
  (forall k', In k' keys -> key_eqb k k' = false) ->
  lookup_location {| columns := cols; rows := map (fun k' => [k'; f k']) keys |} k = None.
Proof.
  unfold lookup_location. simpl.
  induction keys as [|k0 keys IH]; intros Hall; [reflexivity|].
  unfold cell in *. simpl. rewrite (Hall k0) by (left; reflexivity).
  apply IH. intros k' Hk'. apply Hall. right. exact Hk'.
Qed.

Lemma mapM_Ok {A B : Type} (f : A -> Result B) (g : A -> B) (l : list A) :
  (forall a, f a = Ok (g a)) -> mapM f l = Ok (map g l).
Proof.
  intros Hfg. induction l as [|a l IH]; [reflexivity|].
  simpl. rewrite Hfg, IH. reflexivity.
Qed.

Section Aggregation.
Variable reduce_object : reduction -> list value -> list value -> Result value.

Local Abbreviation aggregate := (MapVisualizer.aggregate_by_location reduce_object).

(** A numeric column is reduced group by group, without an exception. *)
Lemma groupby_reduce_numeric (df : DataFrame) (by_ metric : string) (i j : nat)
    (how : reduction) :
  column_index by_ (columns df) = Some i ->
  column_index metric (columns df) = Some j ->
  forallb is_numeric (get_column j df) = true ->
  groupby_reduce reduce_object df by_ metric how
  = Ok {| index_name := by_;
          items := map (fun k => (k, reduce_column how (get_column j df)
                                       (map (cell j) (group_rows i df k))))
                       (group_keys (get_column i df)) |}.
Proof.
  intros Hi Hj Hnum. unfold groupby_reduce. rewrite Hi, Hj.
  rewrite (mapM_Ok _ (fun k => (k, reduce_column how (get_column j df)
                                     (map (cell j) (group_rows i df k))))).
  - reflexivity.
  - intros k. unfold reduce. rewrite Hnum. reflexivity.
Qed.

(** A column of integers is a numeric column. *)
Lemma is_int64_numeric (column : list value) :
  forallb is_int64 column = true -> forallb is_numeric column = true.
Proof.
  intros H. apply forallb_forall. intros v Hv.
  apply (proj1 (forallb_forall _ _) H) in Hv. destruct v; try discriminate Hv. reflexivity.
Qed.

(** Only the sum of a column of integers is an int64 sum. *)
Lemma reduce_column_not_sum (how : reduction) (column group : list value) :
  how <> Sum -> reduce_column how column group = reduce_numeric how group.
Proof.
  intros Hhow. unfold reduce_column. destruct (forallb is_int64 column); [|reflexivity].
  destruct how; [congruence|reflexivity|reflexivity].
Qed.


Lemma aggregate_sum_numeric (df : DataFrame) (location_column metric_column : string)
    (i j : nat) :
  column_index location_column (columns df) = Some i ->
  column_index metric_column (columns df) = Some j ->
  forallb is_numeric (get_column j df) = true ->
  metric_column +:+ "_Total" <> location_column ->
  aggregate df location_column metric_column "sum"
  = Ok {| columns := [location_column; metric_column +:+ "_Total"];
          rows := map (fun k => [k; reduce_column Sum (get_column j df)
                                      (map (cell j) (group_rows i df k))])
                      (group_keys (get_column i df)) |}.
Proof.
  intros Hi Hj Hnum Hname. unfold MapVisualizer.aggregate_by_location. simpl.
  rewrite (groupby_reduce_numeric df _ _ i j Sum Hi Hj Hnum). simpl.
  unfold reset_index. simpl.
  apply String.eqb_neq in Hname. rewrite Hname. rewrite map_map. reflexivity.
Qed.

Lemma aggregate_count (df : DataFrame) (location_column metric_column : string) (i : nat) :
  column_index location_column (columns df) = Some i ->
  "Count" <> location_column ->
  aggregate df location_column metric_column "count"
  = Ok {| columns := [location_column; "Count"];
          rows := map (fun k => [k; VNum (inject_Z (Z.of_nat (location_count i df k)))])
                      (group_keys (get_column i df)) |}.
Proof.
  intros Hi Hname. unfold MapVisualizer.aggregate_by_location.
  change ("count" =? "sum")%string with false.
  change ("count" =? "mean")%string with false.
  change ("count" =? "count")%string with true.
  cbv iota. unfold groupby_size. rewrite Hi.
  unfold mbind, Result_bind, mret, Result_ret, reset_index.
  cbn [index_name items].
  apply String.eqb_neq in Hname. rewrite Hname. rewrite map_map. reflexivity.
Qed.


Lemma location_count_same (i : nat) (df : DataFrame) (a b : value) :
  key_eqb a b = true -> location_count i df a = location_count i df b.
Proof.
  intros Hab. unfold location_count.
  change (List.filter (fun r => key_eqb a (cell i r)) (rows df)) with (group_rows i df a).
  rewrite (group_rows_same i df a b Hab). reflexivity.
Qed.


(** C5. An aggregation that is none of "sum", "mean", "count" and "max" gives
    what "sum" gives on the same arguments, exception or table alike: the mode
    itself raises nothing.  On a table with the location column and a numeric
    metric column it returns a table. *)
Theorem aggregate_by_location_fallback (df : DataFrame)
    (location_column metric_column aggregation : string) :
  aggregation <> "sum" -> aggregation <> "mean" ->
  aggregation <> "count" -> aggregation <> "max" ->
  aggregate df location_column metric_column aggregation
    = aggregate df location_column metric_column "sum" /\
  (forall out, aggregate df location_column metric_column "sum" = Ok out ->
               aggregate df location_column metric_column aggregation = Ok out) /\
  (forall i j,
     column_index location_column (columns df) = Some i ->
     column_index metric_column (columns df) = Some j ->
     forallb is_numeric (get_column j df) = true ->
     metric_column +:+ "_Total" <> location_column ->
     exists out, aggregate df location_column metric_column aggregation = Ok out).
Proof.
  intros Hsum Hmean Hcount Hmax.
  assert (E : aggregate df location_column metric_column aggregation
              = aggregate df location_column metric_column "sum").
  { unfold MapVisualizer.aggregate_by_location.
    apply String.eqb_neq in Hsum, Hmean, Hcount, Hmax.
    rewrite Hsum, Hmean, Hcount, Hmax. reflexivity. }
  split; [exact E|]. split.
  - intros out Hout. rewrite E. exact Hout.
  - intros i j Hi Hj Hnum Hname. rewrite E. eexists.
    apply (aggregate_sum_numeric df _ _ i j); assumption.
Qed.

End Aggregation.



Lemma aggregate_by_location_fallback_witness :
  MapVisualizer.aggregate_by_location Samples.refuse_objects Samples.fines
    "loc" "fine" "median"
  = Ok {| columns := ["loc"; "fine_Total"];
          rows := [ [VStr "A"; VNum 15]; [VStr "B"; VNum 7] ] |}.
Proof.
  destruct (aggregate_by_location_fallback Samples.refuse_objects Samples.fines
              "loc" "fine" "median") as (E & _ & _); try discriminate.
  rewrite E. reflexivity.
Defined.

(** C9. In mode "count" the result does not depend on [metric_column], be it
    the name of a column of the table or not (nor on how pandas reduces
    anything): the branch counts the rows of each location. *)
Theorem aggregate_by_location_count_ignores_metric
    (reduce1 reduce2 : reduction -> list value -> list value -> Result value)
    (df : DataFrame) (location_column m1 m2 : string) :
  MapVisualizer.aggregate_by_location reduce1 df location_column m1 "count"
  = MapVisualizer.aggregate_by_location reduce2 df location_column m2 "count".
Proof. reflexivity. Qed.

(** ** [add_state_labels] *)
Section StateLabels.
Context {Body : Type}.
Variable int_of_string : string -> option Z.

Local Abbreviation labels := (MapVisualizer.add_state_labels (Body:=Body) int_of_string).

Lemma expected_label_unrecognized (i : nat) (offset_x offset_y : Q) (row : list value) :
  recognized i row = false -> expected_label int_of_string i offset_x offset_y row = None.
Proof.
  unfold recognized, expected_label.
  destruct (MapVisualizer.lookup_state (cell i row)); [discriminate|reflexivity].
Qed.

(** The label of a recognized row sits at the coordinates of its state, moved
    by the offsets. *)
Lemma expected_label_recognized (i : nat) (offset_x offset_y : Q) (row : list value) :
  recognized i row = true ->
  has_integer_metric int_of_string row = true ->
  exists state lat lon a,
    cell i row = VStr state /\
    MapVisualizer.get_state_coordinates !! state = Some (lat, lon) /\
    expected_label int_of_string i offset_x offset_y row = Some a /\
    Annotation.x a = (lon + offset_x)%Q /\
    Annotation.y a = (lat + offset_y)%Q.
Proof.
  unfold recognized, has_integer_metric, expected_label, MapVisualizer.lookup_state.
  destruct (cell i row) as [q|state|t|]; try discriminate.
  destruct (MapVisualizer.get_state_coordinates !! state) as [[lat lon]|] eqn:Hc;
    [|discriminate].
  simpl. intros _ Hint.
  destruct (row !! 1%nat) as [v|]; [|discriminate].
  destruct (MapVisualizer.py_int int_of_string v) as [n|e]; [|discriminate].
  eexists state, lat, lon, _. repeat split; try reflexivity. exact Hc.
Qed.

(** The loop, when no recognized row makes [int] fail. *)
Lemma label_rows_returns (i : nat) (rs : list (list value)) (offset_x offset_y : Q) :
  Forall (fun row => recognized i row = true -> has_integer_metric int_of_string row = true) rs ->
  forall fig : Figure Body,
    MapVisualizer.label_rows int_of_string (Some i) rs offset_x offset_y fig
    = Returned {| body := body fig;
                  annotations := annotations fig
                                 ++ omap (expected_label int_of_string i offset_x offset_y) rs |}.
Proof.
  induction 1 as [|row rs Hrow _ IH]; intros fig.
  - simpl. rewrite app_nil_r. destruct fig; reflexivity.
  - simpl. unfold expected_label at 1. unfold recognized, has_integer_metric in Hrow.
    destruct (MapVisualizer.lookup_state (cell i row)) as [[state [lat lon]]|].
    + specialize (Hrow eq_refl).
      destruct (row !! 1%nat) as [v|]; [|discriminate].
      destruct (MapVisualizer.py_int int_of_string v) as [n|e]; [|discriminate].
      rewrite IH. simpl. rewrite <- app_assoc. reflexivity.
    + apply IH.
Qed.

Lemma labels_count (i : nat) (rs : list (list value)) (offset_x offset_y : Q) :
  Forall (fun row => recognized i row = true -> has_integer_metric int_of_string row = true) rs ->
  length (omap (expected_label int_of_string i offset_x offset_y) rs)
  = length (List.filter (recognized i) rs).
Proof.
  induction 1 as [|row rs Hrow _ IH]; [reflexivity|].
  set (f := expected_label int_of_string i offset_x offset_y) in *.
  change (omap f (row :: rs))
    with (match f row with Some a => a :: omap f rs | None => omap f rs end).
  simpl List.filter. destruct (recognized i row) eqn:Hrec.
  - destruct (expected_label_recognized i offset_x offset_y row Hrec (Hrow eq_refl))
      as (state & lat & lon & a & _ & _ & Ha & _).
    fold f in Ha. rewrite Ha. simpl. rewrite IH. reflexivity.
  - unfold f at 1. rewrite (expected_label_unrecognized i offset_x offset_y row Hrec).
    exact IH.
Qed.

(** C6, as the code has it. For a table with a column ['Location'] in which
    every row of a state of the coordinate table has a second cell that [int]
    accepts, the call returns the figure with one annotation added for each
    such row, in the order of the rows, at the coordinates of the state moved
    by the offsets; a row of any other location adds nothing and raises
    nothing, whatever its cells are; the rest of the figure is as before. *)
Theorem add_state_labels_known_states (fig : Figure Body) (state_data : DataFrame)
    (offset_x offset_y : Q) (i : nat) :
  column_index "Location" (columns state_data) = Some i ->
  Forall (fun row => recognized i row = true -> has_integer_metric int_of_string row = true)
         (rows state_data) ->
  exists fig',
    labels fig state_data offset_x offset_y = Returned fig' /\
    body fig' = body fig /\
    annotations fig'
      = (annotations fig
         ++ omap (expected_label int_of_string i offset_x offset_y) (rows state_data))%list /\
    length (annotations fig')
      = (length (annotations fig) + length (List.filter (recognized i) (rows state_data)))%nat /\
    (forall row, In row (rows state_data) -> recognized i row = false ->
       expected_label int_of_string i offset_x offset_y row = None) /\
    (forall row, In row (rows state_data) -> recognized i row = true ->
       exists state lat lon a,
         cell i row = VStr state /\
         MapVisualizer.get_state_coordinates !! state = Some (lat, lon) /\
         expected_label int_of_string i offset_x offset_y row = Some a /\
         Annotation.x a = (lon + offset_x)%Q /\
         Annotation.y a = (lat + offset_y)%Q).
Proof.
  intros Hloc Hall. eexists. split.
  { unfold MapVisualizer.add_state_labels. rewrite Hloc.
    apply label_rows_returns. exact Hall. }
  split; [reflexivity|]. split; [reflexivity|]. split.
  { simpl. rewrite length_app, labels_count by exact Hall. reflexivity. }
  split.
  - intros row _. apply expected_label_unrecognized.
  - intros row Hin Hrec. apply expected_label_recognized; [exact Hrec|].
    rewrite List.Forall_forall in Hall. apply Hall; assumption.
Qed.

End StateLabels.

Lemma add_state_labels_known_states_witness :
  exists fig',
    MapVisualizer.add_state_labels Samples.no_literal Samples.empty_figure
      Samples.state_counts 0.5 0 = Returned fig' /\
    map (fun a => (Annotation.x a, Annotation.y a)) (annotations fig')
      = [ ((77.23 + 0.5)%Q, (28.61 + 0)%Q); ((75.85 + 0.5)%Q, (30.90 + 0)%Q) ].
Proof.
  destruct (add_state_labels_known_states Samples.no_literal Samples.empty_figure
              Samples.state_counts 0.5 0 0%nat eq_refl)
    as (fig' & Hcall & _ & Hann & _).
  - repeat constructor; vm_compute; congruence.
  - exists fig'. split; [exact Hcall|]. rewrite Hann. reflexivity.
Defined.

(** C6, as stated, fails on a row of a known state whose value is missing, such
    as the mean of a state without a single fine: [int] raises and no
    annotation is added. *)
Lemma add_state_labels_missing_value_raises :
  MapVisualizer.aggregate_by_location Samples.refuse_objects Samples.unpaid
    "Location" "Fine_Amount" "mean" = Ok Samples.state_means /\
  recognized 0 [VStr "Delhi"; VNull] = true /\
  MapVisualizer.add_state_labels Samples.no_literal Samples.empty_figure
    Samples.state_means 0 0 = Raised ValueError Samples.empty_figure.
Proof. split; [reflexivity|]. split; reflexivity. Qed.

(** ** The page router *)

(** C7. The ten labels of the sidebar are distinct and are routed to ten
    distinct modules; for each of them the routing block makes exactly one
    call, of the [app] of its module, with the loaded table as the only
    argument; for any other label it makes no call. *)
Theorem routing_one_renderer :
  map fst views = Main.navigation /\
  NoDup Main.navigation /\
  NoDup (map snd views) /\
  (forall page df, In page Main.navigation ->
     exists module, In (page, module) views /\ Main.routing page df = [Main.App module df]) /\
  (forall page df, ~ In page Main.navigation -> Main.routing page df = []).
Proof.
  split; [reflexivity|].
  split; [apply NoDup_ListNoDup; repeat constructor; simpl; intuition discriminate|].
  split; [apply NoDup_ListNoDup; repeat constructor; simpl; intuition discriminate|].
  split.
  - intros page df Hin. simpl in Hin.
    repeat (destruct Hin as [<-|Hin];
            [eexists; split; [|reflexivity]; simpl; tauto|]).
    destruct Hin.
  - intros page df Hout. unfold Main.routing.
    repeat match goal with
    | |- context [String.eqb page ?l] =>
        destruct (String.eqb_spec page l) as [->|_];
        [exfalso; apply Hout; simpl; tauto|]
    end.
    reflexivity.
Qed.

Lemma routing_one_renderer_witness :
  (exists module, Main.routing "Map Visualisation" 1%positive = [Main.App module 1%positive]) /\
  Main.routing "Settings" 1%positive = [].
Proof.
  destruct routing_one_renderer as (_ & _ & _ & Hin & Hout). split.
  - destruct (Hin "Map Visualisation" 1%positive) as (module & _ & Hcall).
    + simpl. tauto.
    + exists module. exact Hcall.
  - apply Hout. simpl. intuition discriminate.
Defined.

(** ** [load_geojsons] *)
Section Geojsons.
Variable Json : Type.
Variable http_get_json : string -> Result Json.
Variable read_json_file : string -> Result Json.

(** The function under the decorator does what its docstring and its
    [try] announce.  When the world dataset is fetched and the India file
    cannot be loaded, whatever the exception, it returns the world dataset
    with [None] for India, after one request, one attempt on the file and one
    warning: nothing is tried again and nothing else is read.  When the
    request for the world dataset raises, the exception leaves it, and
    neither the file nor the screen has been touched. *)
Lemma load_geojsons_wrapped_degrades :
  (forall world e,
     http_get_json MapVisualizer.world_url = Ok world ->
     read_json_file "india_states.geojson" = Raise e ->
     MapVisualizer.load_geojsons_wrapped Json http_get_json read_json_file
     = ([HttpGet MapVisualizer.world_url; OpenFile "india_states.geojson";
         Warning MapVisualizer.india_warning],
        Ok (world, None))) /\
  (forall e,
     http_get_json MapVisualizer.world_url = Raise e ->
     MapVisualizer.load_geojsons_wrapped Json http_get_json read_json_file
     = ([HttpGet MapVisualizer.world_url], Raise e)).
Proof.
  split.
  - intros world e Hget Hfile. unfold MapVisualizer.load_geojsons_wrapped.
    rewrite Hget, Hfile. reflexivity.
  - intros e Hget. unfold MapVisualizer.load_geojsons_wrapped. rewrite Hget. reflexivity.
Qed.

End Geojsons.

(** C8. The world dataset can be fetched, the India file is not there, the
    cache is empty.  The function under the decorator would return the world
    dataset with [None] for India after one request, one attempt on the file
    and the warning.  The method, called on a [MapVisualizer], does not get
    that far: the cache cannot hash [self], the call raises
    [UnhashableParamError] for that parameter, and nothing is requested,
    opened, shown or stored. *)
Theorem load_geojsons_unhashable_self :
  MapVisualizer.load_geojsons_wrapped string Samples.online Samples.no_file
  = ([HttpGet MapVisualizer.world_url; OpenFile "india_states.geojson";
      Warning MapVisualizer.india_warning],
     Ok ("{world}", None)) /\
  MapVisualizer.load_geojsons string Samples.online Samples.no_file
    (Streamlit.Instance "MapVisualizer") 0 ∅
  = ([], Streamlit.Unhashable (Streamlit.UnhashableParamError "self"), ∅).
Proof.
  split; reflexivity.
Qed.

(* ===================================================================== *)
(** * Part III: further properties of the code *)
(* ===================================================================== *)

From Stdlib Require Import Sorted.

(** ** Lists, again *)

Lemma filter_filter {A : Type} (p q : A -> bool) (l : list A) :
  List.filter p (List.filter q l) = List.filter (fun a => q a && p a) l.
Proof.
  induction l as [|a l IH]; simpl; [reflexivity|].
  destruct (q a); simpl; rewrite IH; reflexivity.
Qed.

Lemma filter_length_le {A : Type} (p q : A -> bool) (l : list A) :
  (forall a, In a l -> p a = true -> q a = true) ->
  (length (List.filter p l) <= length (List.filter q l))%nat.
Proof.
  induction l as [|a l IH]; intros Hpq; simpl; [lia|].
  assert (IH' : (length (List.filter p l) <= length (List.filter q l))%nat).
  { apply IH. intros b Hb. apply Hpq. right. exact Hb. }
  destruct (p a) eqn:Hp.
  - rewrite (Hpq a (or_introl eq_refl) Hp). simpl. lia.
  - destruct (q a); simpl; lia.
Qed.

Lemma fresh_insert_ne (h : heap) (l : positive) (d : DataFrame) :
  fresh (dom (<[l := d]> h)) <> l.
Proof.
  intros E. pose proof (is_fresh (dom (<[l := d]> h))) as Hf.
  rewrite E in Hf. apply Hf. apply elem_of_dom. rewrite lookup_insert_eq. eauto.
Qed.

Lemma in_range_both (s1 e1 s2 e2 : Z) (v : value) :
  in_range s1 e1 v && in_range s2 e2 v = in_range (Z.max s1 s2) (Z.min e1 e2) v.
Proof.
  unfold in_range. destruct v as [q|s|t|]; simpl; try reflexivity.
  destruct (s1 <=? t) eqn:A, (t <=? e1) eqn:B, (s2 <=? t) eqn:C, (t <=? e2) eqn:D,
           (Z.max s1 s2 <=? t) eqn:E, (t <=? Z.min e1 e2) eqn:F; simpl; try reflexivity;
    rewrite ?Z.leb_le, ?Z.leb_gt in *; lia.
Qed.

(** ** [filter_dataframe_by_date]: calls in sequence *)
Section DateFilterSequence.
Variable parse_datetime : list value -> value -> option Z.

Local Abbreviation filter_by_date := (MapVisualizer.filter_dataframe_by_date parse_datetime).

Lemma row_date_is_datetime (column : list value) (i : nat) (r : list value) :
  is_datetime (row_date parse_datetime column i r) = true.
Proof.
  unfold row_date, to_datetime_cell.
  destruct (cell i r); simpl; try reflexivity;
    destruct (parse_datetime column _); reflexivity.
Qed.

Lemma row_date_datetime (column : list value) (i : nat) (r : list value) :
  is_datetime (cell i r) = true -> row_date parse_datetime column i r = cell i r.
Proof. apply to_datetime_cell_datetime. Qed.

(** The outcome of a call on a table that has the column, in one statement. *)
Lemma filter_dataframe_by_date_call (h : heap) (df : positive) (d : DataFrame)
    (date_column : string) (i : nat) (start_date end_date : Z) :
  h !! df = Some d ->
  column_index date_column (columns d) = Some i ->
  exists result h',
    filter_by_date df start_date end_date date_column h = Some (result, h') /\
    h' !! result = Some (filtered_frame parse_datetime i start_date end_date d) /\
    h' !! df = Some (dated_frame parse_datetime i d) /\
    result <> df /\
    forall l, l <> df -> l <> result -> h' !! l = h !! l.
Proof.
  intros Hdf Hcol.
  pose proof (fresh_insert_ne h df (dated_frame parse_datetime i d)) as Hne.
  eexists _, _.
  split; [apply (filter_dataframe_by_date_present parse_datetime h df d date_column i);
          assumption|].
  split; [apply lookup_insert_eq|].
  split; [rewrite lookup_insert_ne by exact Hne; apply lookup_insert_eq|].
  split; [exact Hne|].
  intros l Hl1 Hl2. rewrite !lookup_insert_ne by congruence. reflexivity.
Qed.

(** A table whose dates are timestamps already is filtered on its cells. *)
Lemma dated_frame_datetime (i : nat) (d : DataFrame) :
  (forall r, In r (rows d) -> is_datetime (cell i r) = true) ->
  dated_frame parse_datetime i d = d.
Proof.
  intros Hall. unfold dated_frame. destruct d as [cols rs]. simpl in *. f_equal.
  transitivity (map (fun r : list value => r) rs); [|apply map_id].
  apply map_ext_in. intros r Hr. apply coerce_row_datetime. apply Hall. exact Hr.
Qed.

Lemma filtered_frame_datetime (i : nat) (start_date end_date : Z) (d : DataFrame) :
  (forall r, In r (rows d) -> is_datetime (cell i r) = true) ->
  filtered_frame parse_datetime i start_date end_date d
  = {| columns := columns d;
       rows := List.filter (fun r => in_range start_date end_date (cell i r)) (rows d) |}.
Proof.
  intros Hall. unfold filtered_frame, kept_rows. f_equal.
  transitivity (map (fun r : list value => r)
                  (List.filter (fun r => in_range start_date end_date (cell i r)) (rows d))).
  - rewrite (filter_ext_in
               (fun r => in_range start_date end_date
                           (row_date parse_datetime (get_column i d) i r))
               (fun r => in_range start_date end_date (cell i r))).
    + apply map_ext_in. intros r Hr. apply filter_In in Hr.
      apply coerce_row_datetime. apply Hall. apply Hr.
    + intros r Hr. rewrite row_date_datetime by (apply Hall; exact Hr). reflexivity.
  - apply map_id.
Qed.

Lemma dated_frame_cells (i : nat) (d : DataFrame) (r : list value) :
  In r (rows (dated_frame parse_datetime i d)) -> is_datetime (cell i r) = true.
Proof.
  simpl. intros Hr. apply in_map_iff in Hr. destruct Hr as (r0 & <- & _).
  rewrite cell_coerce_row. apply row_date_is_datetime.
Qed.

Lemma filtered_frame_cells (i : nat) (start_date end_date : Z) (d : DataFrame)
    (r : list value) :
  In r (rows (filtered_frame parse_datetime i start_date end_date d)) ->
  is_datetime (cell i r) = true.
Proof.
  simpl. intros Hr. apply in_map_iff in Hr. destruct Hr as (r0 & <- & _).
  rewrite cell_coerce_row. apply row_date_is_datetime.
Qed.

(** Filtering what a call returned. *)
Lemma filtered_frame_twice (i : nat) (s1 e1 s2 e2 : Z) (d : DataFrame) :
  filtered_frame parse_datetime i s2 e2 (filtered_frame parse_datetime i s1 e1 d)
  = filtered_frame parse_datetime i (Z.max s1 s2) (Z.min e1 e2) d.
Proof.
  rewrite filtered_frame_datetime by apply filtered_frame_cells.
  unfold filtered_frame at 2. simpl. unfold filtered_frame. f_equal.
  rewrite filter_map_swap. f_equal. unfold kept_rows. rewrite filter_filter.
  apply filter_ext. intros r. rewrite cell_coerce_row. apply in_range_both.
Qed.

(** Filtering the input again, once a call has overwritten its dates. *)
Lemma filtered_frame_dated (i : nat) (start_date end_date : Z) (d : DataFrame) :
  filtered_frame parse_datetime i start_date end_date (dated_frame parse_datetime i d)
  = filtered_frame parse_datetime i start_date end_date d.
Proof.
  rewrite filtered_frame_datetime by apply dated_frame_cells.
  unfold filtered_frame, dated_frame, kept_rows. simpl. f_equal.
  rewrite filter_map_swap. f_equal.
  apply filter_ext. intros r. rewrite cell_coerce_row. reflexivity.
Qed.

(** X1. Filtering the table a call returned, with a second range, returns the
    table a single call with the intersection of the two ranges returns; with
    the same range again, the same table. *)
Theorem filter_dataframe_by_date_twice (h : heap) (df : positive) (d : DataFrame)
    (date_column : string) (i : nat) (s1 e1 s2 e2 : Z) :
  h !! df = Some d ->
  column_index date_column (columns d) = Some i ->
  exists r1 h1 r2 h2 r3 h3 out,
    filter_by_date df s1 e1 date_column h = Some (r1, h1) /\
    filter_by_date r1 s2 e2 date_column h1 = Some (r2, h2) /\
    h2 !! r2 = Some out /\
    filter_by_date df (Z.max s1 s2) (Z.min e1 e2) date_column h = Some (r3, h3) /\
    h3 !! r3 = Some out /\
    (s1 = s2 -> e1 = e2 -> h1 !! r1 = Some out).
Proof.
  intros Hdf Hcol.
  destruct (filter_dataframe_by_date_call h df d date_column i s1 e1 Hdf Hcol)
    as (r1 & h1 & Hc1 & Hr1 & _).
  destruct (filter_dataframe_by_date_call h1 r1 _ date_column i s2 e2 Hr1 Hcol)
    as (r2 & h2 & Hc2 & Hr2 & _).
  destruct (filter_dataframe_by_date_call h df d date_column i (Z.max s1 s2) (Z.min e1 e2)
              Hdf Hcol) as (r3 & h3 & Hc3 & Hr3 & _).
  exists r1, h1, r2, h2, r3, h3, (filtered_frame parse_datetime i (Z.max s1 s2) (Z.min e1 e2) d).
  split; [exact Hc1|]. split; [exact Hc2|].
  split; [rewrite Hr2, filtered_frame_twice; reflexivity|].
  split; [exact Hc3|]. split; [exact Hr3|].
  intros -> ->. rewrite Z.max_id, Z.min_id. exact Hr1.
Qed.

(** X2. A second call on the same input finds its dates overwritten and
    writes nothing new: the input is the same before and after it, the table
    returned is the one a first call with that range returns, and the table
    the first call returned is still there. *)
Theorem filter_dataframe_by_date_again (h : heap) (df : positive) (d : DataFrame)
    (date_column : string) (i : nat) (s1 e1 s2 e2 : Z) :
  h !! df = Some d ->
  column_index date_column (columns d) = Some i ->
  exists r1 h1 r2 h2,
    filter_by_date df s1 e1 date_column h = Some (r1, h1) /\
    filter_by_date df s2 e2 date_column h1 = Some (r2, h2) /\
    h2 !! df = h1 !! df /\
    h2 !! r2 = Some (filtered_frame parse_datetime i s2 e2 d) /\
    h2 !! r1 = Some (filtered_frame parse_datetime i s1 e1 d) /\
    r1 <> r2.
Proof.
  intros Hdf Hcol.
  destruct (filter_dataframe_by_date_call h df d date_column i s1 e1 Hdf Hcol)
    as (r1 & h1 & Hc1 & Hr1 & Hd1 & Hne1 & _).
  destruct (filter_dataframe_by_date_call h1 df _ date_column i s2 e2 Hd1 Hcol)
    as (r2 & h2 & Hc2 & Hr2 & Hd2 & Hne2 & Hrest).
  assert (Hr12 : r1 <> r2).
  { intros E. subst r2.
    unfold MapVisualizer.filter_dataframe_by_date in Hc2. rewrite Hd1 in Hc2.
    simpl in Hc2. rewrite Hcol in Hc2. injection Hc2 as Hfresh _.
    pose proof (is_fresh (dom (<[df := set_column i
        (to_datetime parse_datetime (get_column i (dated_frame parse_datetime i d)))
        (dated_frame parse_datetime i d)]> h1))) as Hf.
    rewrite Hfresh in Hf. apply Hf. apply elem_of_dom.
    rewrite lookup_insert_ne by congruence. rewrite Hr1. eauto. }
  exists r1, h1, r2, h2.
  split; [exact Hc1|]. split; [exact Hc2|].
  split.
  { rewrite Hd2, Hd1. f_equal. apply dated_frame_datetime. apply dated_frame_cells. }
  split; [rewrite Hr2, filtered_frame_dated; reflexivity|].
  split; [rewrite Hrest by congruence; exact Hr1|].
  exact Hr12.
Qed.

(** X3. A range whose end is before its start selects nothing: the table
    returned has the columns of the input and no row. *)
Theorem filter_dataframe_by_date_empty_range (h : heap) (df : positive) (d : DataFrame)
    (date_column : string) (i : nat) (start_date end_date : Z) :
  h !! df = Some d ->
  column_index date_column (columns d) = Some i ->
  end_date < start_date ->
  exists result h',
    filter_by_date df start_date end_date date_column h = Some (result, h') /\
    h' !! result = Some {| columns := columns d; rows := [] |}.
Proof.
  intros Hdf Hcol Hlt.
  destruct (filter_dataframe_by_date_call h df d date_column i start_date end_date Hdf Hcol)
    as (result & h' & Hc & Hr & _).
  exists result, h'. split; [exact Hc|]. rewrite Hr. unfold filtered_frame. f_equal.
  unfold kept_rows.
  rewrite (filter_ext _ (fun _ => false)).
  - clear. induction (rows d) as [|r rs IH]; [reflexivity|exact IH].
  - intros r. unfold in_range.
    destruct (row_date parse_datetime (get_column i d) i r) as [q|s|t|]; simpl;
      try reflexivity.
    destruct (start_date <=? t) eqn:A, (t <=? end_date) eqn:B; try reflexivity.
    rewrite Z.leb_le in A, B. lia.
Qed.

(** X4. A wider range returns every record the narrower one returns, and at
    least as many. *)
Theorem filter_dataframe_by_date_wider (h : heap) (df : positive) (d : DataFrame)
    (date_column : string) (i : nat) (s1 e1 s2 e2 : Z) :
  h !! df = Some d ->
  column_index date_column (columns d) = Some i ->
  s2 <= s1 -> e1 <= e2 ->
  exists r1 h1 out1 r2 h2 out2,
    filter_by_date df s1 e1 date_column h = Some (r1, h1) /\
    h1 !! r1 = Some out1 /\
    filter_by_date df s2 e2 date_column h = Some (r2, h2) /\
    h2 !! r2 = Some out2 /\
    (forall r, In r (rows out1) -> In r (rows out2)) /\
    (length (rows out1) <= length (rows out2))%nat.
Proof.
  intros Hdf Hcol Hs He.
  destruct (filter_dataframe_by_date_call h df d date_column i s1 e1 Hdf Hcol)
    as (r1 & h1 & Hc1 & Hr1 & _).
  destruct (filter_dataframe_by_date_call h df d date_column i s2 e2 Hdf Hcol)
    as (r2 & h2 & Hc2 & Hr2 & _).
  assert (Hin : forall v, in_range s1 e1 v = true -> in_range s2 e2 v = true).
  { intros v. unfold in_range. destruct v as [q|s|t|]; simpl; try discriminate.
    rewrite !andb_true_iff, !Z.leb_le. lia. }
  eexists r1, h1, _, r2, h2, _.
  split; [exact Hc1|]. split; [exact Hr1|]. split; [exact Hc2|]. split; [exact Hr2|].
  split.
  - simpl. intros r Hr. apply in_map_iff in Hr. destruct Hr as (r0 & <- & Hr0).
    apply in_map. unfold kept_rows in *. apply filter_In in Hr0. apply filter_In.
    split; [apply Hr0|]. apply Hin. apply Hr0.
  - simpl. rewrite !length_map. unfold kept_rows. apply filter_length_le.
    intros r _. apply Hin.
Qed.

End DateFilterSequence.

Lemma filter_dataframe_by_date_twice_witness :
  exists r1 h1 r2 h2 out,
    MapVisualizer.filter_dataframe_by_date Samples.parse_iso 1%positive
      (Samples.january_2024 1) (Samples.january_2024 3) "Date"
      {[ 1%positive := Samples.violations ]} = Some (r1, h1) /\
    MapVisualizer.filter_dataframe_by_date Samples.parse_iso r1
      (Samples.january_2024 2) (Samples.january_2024 4) "Date" h1 = Some (r2, h2) /\
    h2 !! r2 = Some out /\
    rows out = [ [VTimestamp (Samples.january_2024 2); VStr "Punjab"; VNum 200] ].
Proof.
  destruct (filter_dataframe_by_date_twice Samples.parse_iso
              {[ 1%positive := Samples.violations ]} 1%positive Samples.violations
              "Date" 0%nat (Samples.january_2024 1) (Samples.january_2024 3)
              (Samples.january_2024 2) (Samples.january_2024 4)
              (lookup_singleton_eq _ _) eq_refl)
    as (r1 & h1 & r2 & h2 & r3 & h3 & out & Hc1 & Hc2 & Hr2 & Hc3 & Hr3 & _).
  exists r1, h1, r2, h2, out.
  split; [exact Hc1|]. split; [exact Hc2|]. split; [exact Hr2|].
  vm_compute in Hc3. injection Hc3 as <- <-.
  vm_compute in Hr3. injection Hr3 as <-. reflexivity.
Defined.

Lemma filter_dataframe_by_date_again_witness :
  exists r1 h1 r2 h2 out,
    MapVisualizer.filter_dataframe_by_date Samples.parse_iso 1%positive
      (Samples.january_2024 1) (Samples.january_2024 3) "Date"
      {[ 1%positive := Samples.violations ]} = Some (r1, h1) /\
    MapVisualizer.filter_dataframe_by_date Samples.parse_iso 1%positive
      (Samples.january_2024 4) (Samples.january_2024 4) "Date" h1 = Some (r2, h2) /\
    h2 !! 1%positive = h1 !! 1%positive /\
    h2 !! r2 = Some out /\
    rows out = [ [VTimestamp (Samples.january_2024 4); VStr "Delhi"; VNum 1000] ].
Proof.
  destruct (filter_dataframe_by_date_again Samples.parse_iso
              {[ 1%positive := Samples.violations ]} 1%positive Samples.violations
              "Date" 0%nat (Samples.january_2024 1) (Samples.january_2024 3)
              (Samples.january_2024 4) (Samples.january_2024 4)
              (lookup_singleton_eq _ _) eq_refl)
    as (r1 & h1 & r2 & h2 & Hc1 & Hc2 & Hsame & Hr2 & _).
  eexists r1, h1, r2, h2, _.
  split; [exact Hc1|]. split; [exact Hc2|]. split; [exact Hsame|]. split; [exact Hr2|].
  reflexivity.
Defined.

Lemma filter_dataframe_by_date_empty_range_witness :
  exists result h',
    MapVisualizer.filter_dataframe_by_date Samples.parse_iso 1%positive
      (Samples.january_2024 3) (Samples.january_2024 1) "Date"
      {[ 1%positive := Samples.violations ]} = Some (result, h') /\
    h' !! result = Some {| columns := ["Date"; "Location"; "Fine_Amount"]; rows := [] |}.
Proof.
  apply (filter_dataframe_by_date_empty_range Samples.parse_iso
           {[ 1%positive := Samples.violations ]} 1%positive Samples.violations
           "Date" 0%nat).
  - apply lookup_singleton_eq.
  - reflexivity.
  - reflexivity.
Defined.

Lemma filter_dataframe_by_date_wider_witness :
  exists r1 h1 out1 r2 h2 out2,
    MapVisualizer.filter_dataframe_by_date Samples.parse_iso 1%positive
      (Samples.january_2024 2) (Samples.january_2024 3) "Date"
      {[ 1%positive := Samples.violations ]} = Some (r1, h1) /\
    h1 !! r1 = Some out1 /\
    MapVisualizer.filter_dataframe_by_date Samples.parse_iso 1%positive
      (Samples.january_2024 1) (Samples.january_2024 4) "Date"
      {[ 1%positive := Samples.violations ]} = Some (r2, h2) /\
    h2 !! r2 = Some out2 /\
    (length (rows out1) <= length (rows out2))%nat.
Proof.
  destruct (filter_dataframe_by_date_wider Samples.parse_iso
              {[ 1%positive := Samples.violations ]} 1%positive Samples.violations
              "Date" 0%nat (Samples.january_2024 2) (Samples.january_2024 3)
              (Samples.january_2024 1) (Samples.january_2024 4)
              (lookup_singleton_eq _ _) eq_refl)
    as (r1 & h1 & out1 & r2 & h2 & out2 & Hc1 & Hr1 & Hc2 & Hr2 & _ & Hlen).
  - vm_compute. discriminate.
  - vm_compute. discriminate.
  - exists r1, h1, out1, r2, h2, out2. repeat split; assumption.
Defined.

(** ** [aggregate_by_location]: errors, shape of the result, the modes together *)

(** Group keys are pairwise different, and stay so when sorted. *)
Lemma FOP_filter {A : Type} (R : A -> A -> Prop) (p : A -> bool) (l : list A) :
  ForallOrdPairs R l -> ForallOrdPairs R (List.filter p l).
Proof.
  induction 1 as [|a l Ha _ IH]; simpl; [constructor|].
  destruct (p a); [|exact IH].
  constructor; [|exact IH].
  rewrite List.Forall_forall in *. intros x Hx. apply Ha.
  apply filter_In in Hx. apply Hx.
Qed.

Lemma uniques_different (l : list value) : ForallOrdPairs different (uniques l).
Proof.
  induction l as [|k l IH]; simpl; [constructor|].
  constructor; [|apply FOP_filter; exact IH].
  rewrite List.Forall_forall. intros x Hx. apply filter_In in Hx.
  destruct Hx as [_ Hx]. unfold different. destruct (key_eqb k x); [discriminate|reflexivity].
Qed.

Lemma insert_key_different (k : value) (l : list value) :
  Forall (different k) l -> ForallOrdPairs different l ->
  ForallOrdPairs different (insert_key k l).
Proof.
  induction l as [|k' l IH]; intros Hk Hl; simpl.
  - constructor; [constructor|constructor].
  - destruct (key_leb k k'); [constructor; assumption|].
    inversion Hk as [|? ? Hkk' Hkl]; subst. inversion Hl as [|? ? Hk'l Hl']; subst.
    constructor; [|apply IH; assumption].
    rewrite List.Forall_forall in *. intros x Hx. apply In_insert_key in Hx.
    destruct Hx as [->|Hx]; [|apply Hk'l; exact Hx].
    unfold different in *. rewrite key_eqb_sym. exact Hkk'.
Qed.

Lemma sort_keys_different (l : list value) :
  ForallOrdPairs different l -> ForallOrdPairs different (sort_keys l).
Proof.
  induction 1 as [|a l Ha _ IH]; simpl; [constructor|].
  apply insert_key_different; [|exact IH].
  rewrite List.Forall_forall in *. intros x Hx. apply Ha.
  apply (proj1 (In_sort_keys x l)). exact Hx.
Qed.

Lemma group_keys_different (ks : list value) : ForallOrdPairs different (group_keys ks).
Proof. apply sort_keys_different, uniques_different. Qed.

Lemma group_keys_not_null (k : value) (ks : list value) :
  In k (group_keys ks) -> is_null k = false.
Proof.
  unfold group_keys. intros Hin. apply (proj1 (In_sort_keys _ _)) in Hin.
  apply In_uniques in Hin. apply filter_In in Hin. destruct Hin as [_ Hn].
  destruct (is_null k); [discriminate|reflexivity].
Qed.

(** The order of the group keys. *)
Lemma key_leb_total (a b : value) : key_leb a b = true \/ key_leb b a = true.
Proof.
  destruct a as [p|s|t|], b as [q|s'|t'|]; simpl; auto.
  - destruct (Qle_bool p q) eqn:E; [left; reflexivity|right].
    apply Qle_bool_iff. apply Qlt_le_weak. apply Qnot_le_lt.
    intros H. apply Qle_bool_iff in H. congruence.
  - apply String.leb_total.
  - destruct (t <=? t') eqn:E; [left; reflexivity|right].
    apply Z.leb_le. apply Z.leb_gt in E. lia.
Qed.

Lemma insert_key_sorted (k : value) (l : list value) :
  Sorted (fun a b => key_leb a b = true) l ->
  Sorted (fun a b => key_leb a b = true) (insert_key k l).
Proof.
  induction 1 as [|k' l Hl IH Hhd]; simpl.
  - repeat constructor.
  - destruct (key_leb k k') eqn:E.
    + constructor; [constructor; assumption|constructor; exact E].
    + constructor; [exact IH|].
      destruct l as [|k'' l]; simpl.
      * constructor. destruct (key_leb_total k k'); congruence.
      * destruct (key_leb k k''); constructor.
        -- destruct (key_leb_total k k'); congruence.
        -- inversion Hhd; assumption.
Qed.

Lemma group_keys_sorted (ks : list value) :
  Sorted (fun a b => key_leb a b = true) (group_keys ks).
Proof.
  unfold group_keys, sort_keys.
  induction (uniques (List.filter (fun k => negb (is_null k)) ks)) as [|k l IH]; simpl.
  - constructor.
  - apply insert_key_sorted. exact IH.
Qed.

(** A list sorted by [R] without two equal elements, all of a kind, is
    strictly sorted once read through [f]. *)
Lemma Sorted_strict {A B : Type} (R D : A -> A -> Prop) (P : A -> Prop)
    (S : B -> B -> Prop) (f : A -> B) (l : list A) :
  (forall a b, P a -> P b -> R a b -> D a b -> S (f a) (f b)) ->
  Forall P l -> Sorted R l -> ForallOrdPairs D l -> Sorted S (map f l).
Proof.
  intros HS HP Hsorted. revert HP.
  induction Hsorted as [|a l Hl IH Hhd]; intros HP Hd; simpl; [constructor|].
  inversion HP as [|? ? Pa Pl]; subst. inversion Hd as [|? ? Da Dl]; subst.
  constructor; [apply IH; assumption|].
  destruct l as [|b l]; simpl; constructor.
  inversion Hhd; subst. inversion Pl; subst. inversion Da; subst.
  apply HS; assumption.
Qed.

Lemma mapM_keys {B : Type} (g : value -> Result B) (l : list value) (its : list (value * B)) :
  mapM (fun k => v ← g k; mret (k, v)) l = Ok its -> map fst its = l.
Proof.
  revert its. induction l as [|k l IH]; intros its; simpl.
  - intros H. injection H as <-. reflexivity.
  - destruct (g k) as [v|e]; simpl; [|discriminate].
    destruct (mapM (fun k => v ← g k; mret (k, v)) l) as [its'|e]; simpl; [|discriminate].
    intros H. injection H as <-. simpl. f_equal. apply IH. reflexivity.
Qed.

Lemma reset_index_locations (s : Series) (name : string) (out : DataFrame) :
  reset_index s name = Ok out ->
  locations out = map fst (items s) /\ columns out = [index_name s; name].
Proof.
  unfold reset_index. destruct (String.eqb name (index_name s)); [discriminate|].
  intros H. injection H as <-. unfold locations. simpl. split; [|reflexivity].
  rewrite map_map. reflexivity.
Qed.

Section AggregationShape.
Variable reduce_object : reduction -> list value -> list value -> Result value.

Local Abbreviation aggregate := (MapVisualizer.aggregate_by_location reduce_object).

Lemma groupby_reduce_keys (df : DataFrame) (by_ metric : string) (how : reduction)
    (i : nat) (s : Series) :
  column_index by_ (columns df) = Some i ->
  groupby_reduce reduce_object df by_ metric how = Ok s ->
  map fst (items s) = group_keys (get_column i df) /\ index_name s = by_.
Proof.
  intros Hi. unfold groupby_reduce. rewrite Hi.
  destruct (column_index metric (columns df)) as [j|]; [|discriminate].
  destruct (mapM _ (group_keys (get_column i df))) as [its|e] eqn:E; simpl; [|discriminate].
  intros H. injection H as <-. simpl. split; [|reflexivity].
  apply (mapM_keys _ _ _ E).
Qed.

Lemma groupby_size_keys (df : DataFrame) (by_ : string) (i : nat) (s : Series) :
  column_index by_ (columns df) = Some i ->
  groupby_size df by_ = Ok s ->
  map fst (items s) = group_keys (get_column i df) /\ index_name s = by_.
Proof.
  intros Hi. unfold groupby_size. rewrite Hi. intros H. injection H as <-. simpl.
  split; [|reflexivity]. rewrite map_map. simpl. apply map_id.
Qed.

(** Whatever the mode, a table returned lists the group keys of the location
    column, under the name of that column. *)
Lemma aggregate_locations (df : DataFrame) (location_column metric_column aggregation : string)
    (i : nat) (out : DataFrame) :
  column_index location_column (columns df) = Some i ->
  aggregate df location_column metric_column aggregation = Ok out ->
  locations out = group_keys (get_column i df) /\
  exists name, columns out = [location_column; name].
Proof.
  intros Hi. unfold MapVisualizer.aggregate_by_location.
  assert (Hred : forall how name,
            (s ← groupby_reduce reduce_object df location_column metric_column how;
             reset_index s name) = Ok out ->
            locations out = group_keys (get_column i df) /\
            exists name, columns out = [location_column; name]).
  { intros how name.
    destruct (groupby_reduce reduce_object df location_column metric_column how)
      as [s|e] eqn:E; simpl; [|discriminate].
    intros H. apply reset_index_locations in H. destruct H as [H1 H2].
    destruct (groupby_reduce_keys df _ _ how i s Hi E) as [K1 K2].
    rewrite H1, K1, H2, K2. eauto. }
  destruct (String.eqb aggregation "sum"); [apply Hred|].
  destruct (String.eqb aggregation "mean"); [apply Hred|].
  destruct (String.eqb aggregation "count").
  - destruct (groupby_size df location_column) as [s|e] eqn:E; simpl; [|discriminate].
    intros H. apply reset_index_locations in H. destruct H as [H1 H2].
    destruct (groupby_size_keys df _ i s Hi E) as [K1 K2].
    rewrite H1, K1, H2, K2. eauto.
  - destruct (String.eqb aggregation "max"); apply Hred.
Qed.

(** X5. When the location column is not a column of the table, every mode,
    recognized or not, raises [KeyError] for that name. *)
Theorem aggregate_by_location_missing_location (df : DataFrame)
    (location_column metric_column aggregation : string) :
  column_index location_column (columns df) = None ->
  aggregate df location_column metric_column aggregation
  = Raise (KeyError location_column).
Proof.
  intros Hloc. unfold MapVisualizer.aggregate_by_location, groupby_reduce, groupby_size.
  rewrite Hloc.
  destruct (String.eqb aggregation "sum"); [reflexivity|].
  destruct (String.eqb aggregation "mean"); [reflexivity|].
  destruct (String.eqb aggregation "count"); [reflexivity|].
  destruct (String.eqb aggregation "max"); reflexivity.
Qed.

(** X6. When the metric column is not a column of the table (and the location
    column is), mode "count" still returns the counts, and every other mode
    raises [KeyError] for the metric name. *)
Theorem aggregate_by_location_missing_metric (df : DataFrame)
    (location_column metric_column : string) (i : nat) :
  column_index location_column (columns df) = Some i ->
  column_index metric_column (columns df) = None ->
  (forall aggregation, aggregation <> "count" ->
     aggregate df location_column metric_column aggregation
     = Raise (KeyError metric_column)) /\
  ("Count" <> location_column ->
     aggregate df location_column metric_column "count"
     = Ok {| columns := [location_column; "Count"];
             rows := map (fun k => [k; VNum (inject_Z (Z.of_nat (location_count i df k)))])
                         (group_keys (get_column i df)) |}).
Proof.
  intros Hloc Hmet. split.
  - intros aggregation Hcount.
    unfold MapVisualizer.aggregate_by_location, groupby_reduce.
    rewrite Hloc, Hmet. apply String.eqb_neq in Hcount. rewrite Hcount.
    destruct (String.eqb aggregation "sum"); [reflexivity|].
    destruct (String.eqb aggregation "mean"); [reflexivity|].
    destruct (String.eqb aggregation "max"); reflexivity.
  - intros Hname. apply aggregate_count; assumption.
Qed.

(** X7. Whatever the mode, a table returned has one row for each location of
    the input: its locations are pairwise different, none is missing, each is
    the location of a row of the input, and each location of a row of the
    input is among them. *)
Theorem aggregate_by_location_one_row_per_location (df : DataFrame)
    (location_column metric_column aggregation : string) (i : nat) (out : DataFrame) :
  column_index location_column (columns df) = Some i ->
  aggregate df location_column metric_column aggregation = Ok out ->
  length (rows out) = length (locations out) /\
  ForallOrdPairs different (locations out) /\
  (forall k, In k (locations out) -> is_null k = false /\ occurs i df k = true) /\
  (forall k, occurs i df k = true ->
     exists k', In k' (locations out) /\ key_eqb k k' = true).
Proof.
  intros Hi Hout. destruct (aggregate_locations df _ _ _ i out Hi Hout) as [Hkeys _].
  split; [unfold locations; rewrite length_map; reflexivity|].
  rewrite Hkeys. split; [apply group_keys_different|]. split.
  - intros k Hk. pose proof (group_keys_not_null k _ Hk) as Hn. split; [exact Hn|].
    apply group_keys_sub in Hk. unfold get_column in Hk. apply in_map_iff in Hk.
    destruct Hk as (r & <- & Hr). unfold occurs. apply existsb_exists.
    exists r. split; [exact Hr|]. apply key_eqb_refl. exact Hn.
  - apply occurs_true.
Qed.

(** X8. When the locations of the input are strings (or missing), the rows of
    a table returned are in strictly increasing order of the location, code
    point by code point, whatever the mode. *)
Theorem aggregate_by_location_sorted (df : DataFrame)
    (location_column metric_column aggregation : string) (i : nat) (out : DataFrame) :
  column_index location_column (columns df) = Some i ->
  (forall r, In r (rows df) -> cell i r = VNull \/ exists s, cell i r = VStr s) ->
  aggregate df location_column metric_column aggregation = Ok out ->
  exists names,
    locations out = map VStr names /\
    Sorted (fun s t => String.ltb s t = true) names.
Proof.
  intros Hi Hstr Hout. destruct (aggregate_locations df _ _ _ i out Hi Hout) as [Hkeys _].
  set (name_of := fun v => match v with VStr s => s | _ => EmptyString end).
  assert (Hall : Forall (fun k => exists s, k = VStr s) (group_keys (get_column i df))).
  { rewrite List.Forall_forall. intros k Hk.
    pose proof (group_keys_not_null k _ Hk) as Hn.
    apply group_keys_sub in Hk. unfold get_column in Hk. apply in_map_iff in Hk.
    destruct Hk as (r & <- & Hr). destruct (Hstr r Hr) as [E|E]; [|exact E].
    rewrite E in Hn. discriminate. }
  exists (map name_of (locations out)). rewrite Hkeys. split.
  - rewrite map_map. transitivity (map (fun k : value => k) (group_keys (get_column i df)));
      [symmetry; apply map_id|].
    apply map_ext_in. intros k Hk. rewrite List.Forall_forall in Hall.
    destruct (Hall k Hk) as [s ->]. reflexivity.
  - apply (Sorted_strict (fun a b => key_leb a b = true) different
             (fun k => exists s, k = VStr s)).
    + intros a b [s ->] [t ->] Hle Hne. unfold different in Hne. simpl in *.
      unfold String.leb in Hle. unfold String.ltb.
      destruct (String.compare s t) eqn:E; try reflexivity; try discriminate.
      apply String.compare_eq_iff in E. subst t. rewrite String.eqb_refl in Hne.
      discriminate.
    + exact Hall.
    + apply group_keys_sorted.
    + apply group_keys_different.
Qed.

End AggregationShape.

(** *** Counting the rows of the groups *)

Lemma list_sum_insert_key (f : value -> nat) (k : value) (l : list value) :
  list_sum (map f (insert_key k l)) = (f k + list_sum (map f l))%nat.
Proof.
  induction l as [|k' l IH]; simpl; [reflexivity|].
  destruct (key_leb k k'); simpl; [reflexivity|]. rewrite IH. lia.
Qed.

Lemma list_sum_sort_keys (f : value -> nat) (l : list value) :
  list_sum (map f (sort_keys l)) = list_sum (map f l).
Proof.
  induction l as [|k l IH]; simpl; [reflexivity|].
  rewrite list_sum_insert_key, IH. reflexivity.
Qed.

Lemma filter_split_length {A : Type} (p : A -> bool) (l : list A) :
  (length (List.filter p l) + length (List.filter (fun a => negb (p a)) l))%nat = length l.
Proof.
  induction l as [|a l IH]; simpl; [reflexivity|].
  destruct (p a); simpl; lia.
Qed.

(** Taking first occurrences commutes with a selection that does not tell
    equal keys apart. *)
Lemma uniques_filter (p : value -> bool) (l : list value) :
  (forall a b, key_eqb a b = true -> p a = p b) ->
  List.filter p (uniques l) = uniques (List.filter p l).
Proof.
  intros Hp. induction l as [|a l IH]; simpl; [reflexivity|].
  destruct (p a) eqn:Pa; simpl.
  - f_equal. rewrite filter_filter.
    rewrite <- IH, filter_filter. apply filter_ext.
    intros x. apply andb_comm.
  - rewrite filter_filter, <- IH. apply filter_ext_in.
    intros x _. destruct (key_eqb a x) eqn:E; simpl; [|reflexivity].
    rewrite <- (Hp a x E), Pa. reflexivity.
Qed.

(** Each key falls in the group of exactly one of the first occurrences. *)
Lemma uniques_partition (n : nat) :
  forall M : list value,
    (length M <= n)%nat ->
    (forall x, In x M -> key_eqb x x = true) ->
    list_sum (map (fun k => length (List.filter (key_eqb k) M)) (uniques M)) = length M.
Proof.
  induction n as [|n IH]; intros M Hlen Hrefl.
  - destruct M; [reflexivity|simpl in Hlen; lia].
  - destruct M as [|k M]; [reflexivity|].
    cbn [uniques map list_sum fold_right].
    assert (Hhead : length (List.filter (key_eqb k) (k :: M))
                    = S (length (List.filter (key_eqb k) M))).
    { simpl. rewrite (Hrefl k (or_introl eq_refl)). reflexivity. }
    rewrite Hhead. clear Hhead.
    set (M' := List.filter (fun x => negb (key_eqb k x)) M).
    rewrite (uniques_filter (fun x => negb (key_eqb k x)) M).
    2:{ intros a b Hab. f_equal. rewrite (key_eqb_sym k a), (key_eqb_sym k b).
        apply key_eqb_same. exact Hab. }
    fold M'.
    assert (Hsame : forall k', In k' (uniques M') ->
              length (List.filter (key_eqb k') (k :: M)) = length (List.filter (key_eqb k') M')).
    { intros k' Hk'. apply In_uniques in Hk'. unfold M' in Hk'.
      apply filter_In in Hk'. destruct Hk' as [_ Hkk'].
      apply negb_true_iff in Hkk'.
      assert (Hk'k : key_eqb k' k = false) by (rewrite key_eqb_sym; exact Hkk').
      simpl. rewrite Hk'k.
      unfold M'. rewrite filter_filter. f_equal. apply filter_ext.
      intros x. destruct (key_eqb k' x) eqn:E'.
      - rewrite andb_true_r. destruct (key_eqb k x) eqn:E''; [|reflexivity].
        exfalso. rewrite key_eqb_sym in E'.
        rewrite (key_eqb_trans k x k' E'' E') in Hkk'. discriminate.
      - rewrite andb_false_r. reflexivity. }
    rewrite (map_ext_in _ (fun k' => length (List.filter (key_eqb k') M')) _ Hsame).
    rewrite IH.
    + pose proof (filter_split_length (key_eqb k) M) as Hsplit. fold M' in Hsplit.
      simpl length. lia.
    + unfold M'. pose proof (filter_split_length (key_eqb k) M) as Hsplit.
      simpl in Hlen. lia.
    + intros x Hx. unfold M' in Hx. apply filter_In in Hx. apply Hrefl. right. apply Hx.
Qed.

(** The row counts of the groups add up to the number of rows that have a
    location. *)
Lemma group_counts_total (i : nat) (df : DataFrame) :
  list_sum (map (location_count i df) (group_keys (get_column i df)))
  = length (located_rows i df).
Proof.
  unfold group_keys. rewrite list_sum_sort_keys.
  set (M := List.filter (fun k => negb (is_null k)) (get_column i df)).
  assert (Hcount : forall k, location_count i df k = length (List.filter (key_eqb k) M)).
  { intros k. unfold location_count, M, get_column.
    rewrite filter_filter, filter_map_swap, length_map. f_equal.
    apply filter_ext. intros r. destruct (key_eqb k (cell i r)) eqn:E.
    - rewrite (key_eqb_not_null _ _ E). reflexivity.
    - rewrite andb_false_r. reflexivity. }
  rewrite (map_ext _ _ Hcount).
  rewrite (uniques_partition (length M) M (le_n _)).
  - unfold M, located_rows, get_column. rewrite filter_map_swap, length_map. reflexivity.
  - intros x Hx. unfold M in Hx. apply filter_In in Hx. apply key_eqb_refl.
    destruct Hx as [_ Hx]. destruct (is_null x); [discriminate|reflexivity].
Qed.

Lemma numbers_VNum {A : Type} (f : A -> Q) (l : list A) :
  numbers (map (fun a => VNum (f a)) l) = map f l.
Proof.
  unfold numbers. induction l as [|a l IH]; [reflexivity|].
  simpl. f_equal. exact IH.
Qed.

Lemma total_of_counts (l : list nat) :
  total (map (fun n => inject_Z (Z.of_nat n)) l) = inject_Z (Z.of_nat (list_sum l)).
Proof.
  induction l as [|n l IH]; [reflexivity|].
  change (total (map (fun n => inject_Z (Z.of_nat n)) (n :: l)))
    with (inject_Z (Z.of_nat n) + total (map (fun n => inject_Z (Z.of_nat n)) l))%Q.
  rewrite IH. change (list_sum (n :: l)) with (n + list_sum l)%nat.
  unfold Qplus, inject_Z. cbn [Qnum Qden]. f_equal. lia.
Qed.

(** The largest element, as [max] folds it. *)
Lemma fold_Qmax2 (qs : list Q) :
  forall q, In (fold_left Qmax2 qs q) (q :: qs) /\
            forall x, In x (q :: qs) -> (x <= fold_left Qmax2 qs q)%Q.
Proof.
  induction qs as [|a qs IH]; intros q; simpl.
  - split; [left; reflexivity|]. intros x [->|[]]. apply Qle_refl.
  - destruct (IH (Qmax2 q a)) as [Hin Hle]. split.
    + destruct Hin as [E|Hin]; [|right; right; exact Hin].
      rewrite <- E. unfold Qmax2. destruct (Qle_bool q a); [right; left|left]; reflexivity.
    + assert (Hq : (q <= Qmax2 q a)%Q /\ (a <= Qmax2 q a)%Q).
      { unfold Qmax2. destruct (Qle_bool q a) eqn:E.
        - split; [apply Qle_bool_iff; exact E|apply Qle_refl].
        - split; [apply Qle_refl|]. apply Qlt_le_weak, Qnot_le_lt.
          intros H. apply Qle_bool_iff in H. congruence. }
      intros x [E|[E|Hx]]; [subst x|subst x|].
      * apply (Qle_trans _ (Qmax2 q a)); [apply Hq|]. apply Hle. left. reflexivity.
      * apply (Qle_trans _ (Qmax2 q a)); [apply Hq|]. apply Hle. left. reflexivity.
      * apply Hle. right. exact Hx.
Qed.

Section AggregationModes.
Variable reduce_object : reduction -> list value -> list value -> Result value.

Local Abbreviation aggregate := (MapVisualizer.aggregate_by_location reduce_object).

(** The table of a mode that reduces a numeric metric column. *)
Lemma aggregate_reduce_numeric (df : DataFrame) (location_column metric_column : string)
    (i j : nat) (how : reduction) (name : string) :
  column_index location_column (columns df) = Some i ->
  column_index metric_column (columns df) = Some j ->
  forallb is_numeric (get_column j df) = true ->
  name <> location_column ->
  (s ← groupby_reduce reduce_object df location_column metric_column how;
   reset_index s name)
  = Ok {| columns := [location_column; name];
          rows := map (fun k => [k; reduce_column how (get_column j df)
                                      (map (cell j) (group_rows i df k))])
                      (group_keys (get_column i df)) |}.
Proof.
  intros Hi Hj Hnum Hname.
  rewrite (groupby_reduce_numeric reduce_object df _ _ i j how Hi Hj Hnum).
  unfold mbind, Result_bind, reset_index. cbn [index_name items].
  apply String.eqb_neq in Hname. rewrite Hname. rewrite map_map. reflexivity.
Qed.

Lemma lookup_reduce_numeric (cols : list string) (i j : nat) (df : DataFrame)
    (how : reduction) (k : value) :
  lookup_location
    {| columns := cols;
       rows := map (fun k => [k; reduce_column how (get_column j df)
                                   (map (cell j) (group_rows i df k))])
                   (group_keys (get_column i df)) |} k
  = if occurs i df k
    then Some (reduce_column how (get_column j df) (map (cell j) (group_rows i df k)))
    else None.
Proof.
  destruct (occurs i df k) eqn:Hocc.
  - apply (lookup_location_found _
             (fun k => reduce_column how (get_column j df)
                         (map (cell j) (group_rows i df k)))).
    + intros a b Hab. rewrite (group_rows_same i df a b Hab). reflexivity.
    + apply occurs_true. exact Hocc.
  - apply lookup_location_missing. intros k'. apply occurs_false. exact Hocc.
Qed.

(** The cells of a group are cells of the column. *)
Lemma group_int64 (i j : nat) (df : DataFrame) (k : value) :
  forallb is_int64 (get_column j df) = true ->
  forallb is_int64 (map (cell j) (group_rows i df k)) = true.
Proof.
  unfold get_column, group_rows. intros H.
  induction (rows df) as [|r rs IH]; [reflexivity|].
  simpl in H. apply andb_true_iff in H. destruct H as [Hr Hrs].
  simpl. destruct (key_eqb k (cell i r)); [|exact (IH Hrs)].
  simpl. rewrite Hr. exact (IH Hrs).
Qed.

(** Integers are not missing. *)
Lemma numbers_int64_nil (cells : list value) :
  forallb is_int64 cells = true -> numbers cells = [] -> cells = [].
Proof.
  destruct cells as [|v cells]; [reflexivity|].
  simpl. intros H. apply andb_true_iff in H. destruct H as [Hv _].
  destruct v; try discriminate Hv. unfold numbers. simpl. discriminate.
Qed.

(** The sum of a group in which every metric is missing. *)
Lemma reduce_column_sum_missing (column group : list value) :
  (forallb is_int64 column = true -> forallb is_int64 group = true) ->
  numbers group = [] ->
  reduce_column Sum column group = VNum 0.
Proof.
  intros Hgroup Hnil. unfold reduce_column.
  destruct (forallb is_int64 column) eqn:Hint.
  - rewrite (numbers_int64_nil group (Hgroup eq_refl) Hnil). reflexivity.
  - unfold reduce_numeric. rewrite Hnil. reflexivity.
Qed.

(** The sum of a group of a numeric column is a number. *)
Lemma reduce_column_sum_number (column group : list value) :
  exists s, reduce_column Sum column group = VNum s.
Proof.
  unfold reduce_column. destruct (forallb is_int64 column); eexists; reflexivity.
Qed.

(** X9. In mode "count" the counts of the table returned add up to the number
    of rows of the input that have a location: every such row is counted
    once, a row without location is not counted. *)
Theorem aggregate_by_location_counts_add_up (df : DataFrame)
    (location_column metric_column : string) (i : nat) :
  column_index location_column (columns df) = Some i ->
  "Count" <> location_column ->
  exists out,
    aggregate df location_column metric_column "count" = Ok out /\
    total (numbers (get_column 1 out))
    = inject_Z (Z.of_nat (length (located_rows i df))).
Proof.
  intros Hi Hname. eexists. split; [apply (aggregate_count _ df _ _ i); assumption|].
  unfold get_column. simpl. rewrite map_map.
  change (map (fun k => cell 1 [k; VNum (inject_Z (Z.of_nat (location_count i df k)))])
              (group_keys (get_column i df)))
    with (map (fun k => VNum (inject_Z (Z.of_nat (location_count i df k))))
              (group_keys (get_column i df))).
  rewrite (numbers_VNum (fun k => inject_Z (Z.of_nat (location_count i df k)))).
  rewrite <- (map_map (location_count i df) (fun n => inject_Z (Z.of_nat n))).
  rewrite total_of_counts, group_counts_total. reflexivity.
Qed.

(** X10. In mode "max", on a numeric metric column, each location of the input
    gets the largest of the metric values of its rows: one of them, and not
    less than any of them; a location whose values are all missing gets a
    missing value. *)
Theorem aggregate_by_location_max (df : DataFrame) (location_column metric_column : string)
    (i j : nat) :
  column_index location_column (columns df) = Some i ->
  column_index metric_column (columns df) = Some j ->
  forallb is_numeric (get_column j df) = true ->
  metric_column +:+ "_Max" <> location_column ->
  exists out,
    aggregate df location_column metric_column "max" = Ok out /\
    forall k, occurs i df k = true ->
      (location_values i j df k = [] /\ lookup_location out k = Some VNull) \/
      (exists m, lookup_location out k = Some (VNum m) /\
                 In m (location_values i j df k) /\
                 forall q, In q (location_values i j df k) -> (q <= m)%Q).
Proof.
  intros Hi Hj Hnum Hname. eexists. split.
  { unfold MapVisualizer.aggregate_by_location.
    change ("max" =? "sum")%string with false. change ("max" =? "mean")%string with false.
    change ("max" =? "count")%string with false. change ("max" =? "max")%string with true.
    cbv iota. apply (aggregate_reduce_numeric df _ _ i j Max); assumption. }
  intros k Hocc. rewrite lookup_reduce_numeric, Hocc.
  rewrite reduce_column_not_sum by discriminate.
  unfold location_values, reduce_numeric.
  change (List.filter (fun r => key_eqb k (cell i r)) (rows df)) with (group_rows i df k).
  destruct (numbers (map (cell j) (group_rows i df k))) as [|q qs].
  - left. split; reflexivity.
  - right. exists (fold_left Qmax2 qs q). split; [reflexivity|]. apply fold_Qmax2.
Qed.

(** X11. Where modes "mean" and "sum" part: on a numeric metric column, a
    location whose metric values are all missing has a missing mean and the
    sum 0; a location with a metric value that is not missing has a number
    as mean and a number as sum. *)
Theorem aggregate_by_location_mean_missing (df : DataFrame)
    (location_column metric_column : string) (i j : nat) :
  column_index location_column (columns df) = Some i ->
  column_index metric_column (columns df) = Some j ->
  forallb is_numeric (get_column j df) = true ->
  metric_column +:+ "_Avg" <> location_column ->
  metric_column +:+ "_Total" <> location_column ->
  exists means sums,
    aggregate df location_column metric_column "mean" = Ok means /\
    aggregate df location_column metric_column "sum" = Ok sums /\
    forall k, occurs i df k = true ->
      (location_values i j df k = [] /\
       lookup_location means k = Some VNull /\
       lookup_location sums k = Some (VNum 0)) \/
      (location_values i j df k <> [] /\
       (exists m, lookup_location means k = Some (VNum m)) /\
       (exists s, lookup_location sums k = Some (VNum s))).
Proof.
  intros Hi Hj Hnum Havg Htotal. eexists _, _. split.
  { unfold MapVisualizer.aggregate_by_location.
    change ("mean" =? "sum")%string with false. change ("mean" =? "mean")%string with true.
    cbv iota. apply (aggregate_reduce_numeric df _ _ i j Mean); assumption. }
  split.
  { unfold MapVisualizer.aggregate_by_location.
    change ("sum" =? "sum")%string with true.
    cbv iota. apply (aggregate_reduce_numeric df _ _ i j Sum); assumption. }
  intros k Hocc. rewrite !lookup_reduce_numeric, Hocc.
  rewrite (reduce_column_not_sum Mean) by discriminate.
  unfold location_values.
  change (List.filter (fun r => key_eqb k (cell i r)) (rows df)) with (group_rows i df k).
  destruct (numbers (map (cell j) (group_rows i df k))) as [|q qs] eqn:E.
  - left. split; [reflexivity|]. split.
    + unfold reduce_numeric. rewrite E. reflexivity.
    + rewrite reduce_column_sum_missing; [reflexivity| |exact E].
      intros Hint. apply group_int64. exact Hint.
  - right. split; [discriminate|]. split.
    + unfold reduce_numeric. rewrite E. eexists. reflexivity.
    + destruct (reduce_column_sum_number (get_column j df)
                  (map (cell j) (group_rows i df k))) as [s Hs].
      exists s. rewrite Hs. reflexivity.
Qed.

End AggregationModes.

Lemma aggregate_by_location_missing_location_witness :
  MapVisualizer.aggregate_by_location Samples.refuse_objects Samples.fines
    "state" "fine" "mean" = Raise (KeyError "state").
Proof.
  apply (aggregate_by_location_missing_location Samples.refuse_objects Samples.fines).
  reflexivity.
Defined.

Lemma aggregate_by_location_missing_metric_witness :
  MapVisualizer.aggregate_by_location Samples.refuse_objects Samples.fines
    "loc" "amount" "sum" = Raise (KeyError "amount") /\
  MapVisualizer.aggregate_by_location Samples.refuse_objects Samples.fines
    "loc" "amount" "count"
  = Ok {| columns := ["loc"; "Count"];
          rows := [ [VStr "A"; VNum 2]; [VStr "B"; VNum 1] ] |}.
Proof.
  destruct (aggregate_by_location_missing_metric Samples.refuse_objects Samples.fines
              "loc" "amount" 0%nat eq_refl eq_refl) as [Hraise Hcount].
  split.
  - apply Hraise. discriminate.
  - rewrite Hcount by discriminate. reflexivity.
Defined.

Lemma aggregate_by_location_one_row_per_location_witness :
  ForallOrdPairs different [VStr "Delhi"; VStr "Punjab"] /\
  exists k', In k' [VStr "Delhi"; VStr "Punjab"] /\ key_eqb (VStr "Punjab") k' = true.
Proof.
  destruct (aggregate_by_location_one_row_per_location Samples.refuse_objects
              Samples.violations "Location" "Fine_Amount" "sum" 1%nat
              {| columns := ["Location"; "Fine_Amount_Total"];
                 rows := [ [VStr "Delhi"; VNum 1500]; [VStr "Punjab"; VNum 200] ] |}
              eq_refl eq_refl) as (_ & Hdiff & _ & Hall).
  split; [exact Hdiff|]. apply Hall. reflexivity.
Defined.

Lemma aggregate_by_location_sorted_witness :
  exists names,
    [VStr "Delhi"; VStr "Punjab"] = map VStr names /\
    Sorted (fun s t => String.ltb s t = true) names.
Proof.
  apply (aggregate_by_location_sorted Samples.refuse_objects
           Samples.violations "Location" "Fine_Amount" "sum" 1%nat
           {| columns := ["Location"; "Fine_Amount_Total"];
              rows := [ [VStr "Delhi"; VNum 1500]; [VStr "Punjab"; VNum 200] ] |}).
  - reflexivity.
  - intros r [<-|[<-|[<-|[]]]]; right; eexists; reflexivity.
  - reflexivity.
Defined.

Lemma aggregate_by_location_counts_add_up_witness :
  exists out,
    MapVisualizer.aggregate_by_location Samples.refuse_objects Samples.violations
      "Location" "Fine_Amount" "count" = Ok out /\
    total (numbers (get_column 1 out)) = 3%Q.
Proof.
  destruct (aggregate_by_location_counts_add_up Samples.refuse_objects Samples.violations
              "Location" "Fine_Amount" 1%nat eq_refl) as (out & Hout & Htotal).
  - discriminate.
  - exists out. split; [exact Hout|]. rewrite Htotal. reflexivity.
Defined.

Lemma aggregate_by_location_max_witness :
  exists out m,
    MapVisualizer.aggregate_by_location Samples.refuse_objects Samples.fines
      "loc" "fine" "max" = Ok out /\
    lookup_location out (VStr "A") = Some (VNum m) /\
    (10 <= m)%Q /\ (5 <= m)%Q.
Proof.
  destruct (aggregate_by_location_max Samples.refuse_objects Samples.fines
              "loc" "fine" 0%nat 1%nat eq_refl eq_refl eq_refl) as (out & Hout & Hmax).
  - discriminate.
  - destruct (Hmax (VStr "A") eq_refl) as [[Hnil _]|(m & Hm & _ & Hle)].
    + discriminate Hnil.
    + exists out, m. split; [exact Hout|]. split; [exact Hm|].
      split; apply Hle; [left|right; left]; reflexivity.
Defined.

Lemma aggregate_by_location_mean_missing_witness :
  exists means sums,
    MapVisualizer.aggregate_by_location Samples.refuse_objects Samples.unpaid
      "Location" "Fine_Amount" "mean" = Ok means /\
    MapVisualizer.aggregate_by_location Samples.refuse_objects Samples.unpaid
      "Location" "Fine_Amount" "sum" = Ok sums /\
    lookup_location means (VStr "Delhi") = Some VNull /\
    lookup_location sums (VStr "Delhi") = Some (VNum 0).
Proof.
  destruct (aggregate_by_location_mean_missing Samples.refuse_objects Samples.unpaid
              "Location" "Fine_Amount" 0%nat 1%nat eq_refl eq_refl eq_refl)
    as (means & sums & Hmeans & Hsums & Hk).
  - discriminate.
  - discriminate.
  - destruct (Hk (VStr "Delhi") eq_refl) as [(_ & Hm & Hs)|(Hsome & _)].
    + exists means, sums. repeat split; assumption.
    + exfalso. apply Hsome. reflexivity.
Defined.

(** ** One function after another *)

Lemma lookup_counts (cols : list string) (i : nat) (df : DataFrame) (k : value) :
  lookup_location
    {| columns := cols;
       rows := map (fun k => [k; VNum (inject_Z (Z.of_nat (location_count i df k)))])
                   (group_keys (get_column i df)) |} k
  = if occurs i df k
    then Some (VNum (inject_Z (Z.of_nat (location_count i df k))))
    else None.
Proof.
  destruct (occurs i df k) eqn:Hocc.
  - apply (lookup_location_found _
             (fun k => VNum (inject_Z (Z.of_nat (location_count i df k))))).
    + intros a b Hab. rewrite (location_count_same i df a b Hab). reflexivity.
    + apply occurs_true. exact Hocc.
  - apply lookup_location_missing. intros k'. apply occurs_false. exact Hocc.
Qed.

Section FilterThenCount.
Variable parse_datetime : list value -> value -> option Z.
Variable reduce_object : reduction -> list value -> list value -> Result value.

(** The rows of a location in the table returned are rows of that location in
    the input. *)
Lemma filtered_frame_location_count (i j : nat) (start_date end_date : Z) (d : DataFrame)
    (k : value) :
  j <> i ->
  (location_count j (filtered_frame parse_datetime i start_date end_date d) k
   <= location_count j d k)%nat.
Proof.
  intros Hji. unfold location_count, filtered_frame, kept_rows. simpl.
  rewrite filter_map_swap, length_map, filter_filter.
  apply filter_length_le. intros r _ H. apply andb_true_iff in H. destruct H as [_ H].
  rewrite coerce_row_other in H by congruence. exact H.
Qed.

Lemma filtered_frame_occurs (i j : nat) (start_date end_date : Z) (d : DataFrame)
    (k : value) :
  j <> i ->
  occurs j (filtered_frame parse_datetime i start_date end_date d) k = true ->
  occurs j d k = true.
Proof.
  intros Hji. unfold occurs. rewrite !existsb_exists. simpl.
  intros (r' & Hr' & Hk). apply in_map_iff in Hr'. destruct Hr' as (r & <- & Hr).
  unfold kept_rows in Hr. apply filter_In in Hr.
  exists r. split; [apply Hr|].
  rewrite coerce_row_other in Hk by congruence. exact Hk.
Qed.

(** X12. Counting by location after filtering by date: every location of
    the table returned by the filter is a location of the input, and its
    count is at most its count in the input (the location column being
    another column than the date column). *)
Theorem filter_then_count (h : heap) (df : positive) (d : DataFrame)
    (date_column location_column metric_column : string) (i j : nat)
    (start_date end_date : Z) :
  h !! df = Some d ->
  column_index date_column (columns d) = Some i ->
  column_index location_column (columns d) = Some j ->
  j <> i ->
  "Count" <> location_column ->
  exists result h' out before after,
    MapVisualizer.filter_dataframe_by_date parse_datetime df start_date end_date
      date_column h = Some (result, h') /\
    h' !! result = Some out /\
    MapVisualizer.aggregate_by_location reduce_object d
      location_column metric_column "count" = Ok before /\
    MapVisualizer.aggregate_by_location reduce_object out
      location_column metric_column "count" = Ok after /\
    forall k n, lookup_location after k = Some (VNum n) ->
      exists m, lookup_location before k = Some (VNum m) /\ (n <= m)%Q.
Proof.
  intros Hdf Hi Hj Hji Hname.
  destruct (filter_dataframe_by_date_call parse_datetime h df d date_column i
              start_date end_date Hdf Hi) as (result & h' & Hcall & Hres & _).
  eexists result, h', _, _, _.
  split; [exact Hcall|]. split; [exact Hres|].
  split; [apply (aggregate_count reduce_object d _ _ j); assumption|].
  split; [apply (aggregate_count reduce_object _ _ _ j); assumption|].
  intros k n. rewrite !lookup_counts.
  destruct (occurs j (filtered_frame parse_datetime i start_date end_date d) k) eqn:Hocc;
    [|discriminate].
  rewrite (filtered_frame_occurs i j _ _ d k Hji Hocc).
  intros H. injection H as <-. eexists. split; [reflexivity|].
  rewrite <- Zle_Qle. apply Nat2Z.inj_le. apply filtered_frame_location_count. exact Hji.
Qed.

End FilterThenCount.

Lemma filter_then_count_witness :
  exists result h' out before after,
    MapVisualizer.filter_dataframe_by_date Samples.parse_iso 1%positive
      (Samples.january_2024 1) (Samples.january_2024 3) "Date"
      {[ 1%positive := Samples.violations ]} = Some (result, h') /\
    h' !! result = Some out /\
    MapVisualizer.aggregate_by_location Samples.refuse_objects Samples.violations
      "Location" "Fine_Amount" "count" = Ok before /\
    MapVisualizer.aggregate_by_location Samples.refuse_objects out
      "Location" "Fine_Amount" "count" = Ok after /\
    lookup_location before (VStr "Delhi") = Some (VNum 2) /\
    (forall n, lookup_location after (VStr "Delhi") = Some (VNum n) -> (n <= 2)%Q).
Proof.
  destruct (filter_then_count Samples.parse_iso Samples.refuse_objects
              {[ 1%positive := Samples.violations ]} 1%positive Samples.violations
              "Date" "Location" "Fine_Amount" 0%nat 1%nat
              (Samples.january_2024 1) (Samples.january_2024 3)
              (lookup_singleton_eq _ _) eq_refl eq_refl)
    as (result & h' & out & before & after & Hcall & Hres & Hb & Ha & Hle).
  - discriminate.
  - discriminate.
  - exists result, h', out, before, after.
    split; [exact Hcall|]. split; [exact Hres|]. split; [exact Hb|]. split; [exact Ha|].
    assert (Hdelhi : lookup_location before (VStr "Delhi") = Some (VNum 2)).
    { vm_compute in Hb. injection Hb as <-. reflexivity. }
    split; [exact Hdelhi|].
    intros n Hn. destruct (Hle _ _ Hn) as (m & Hm & Hnm).
    rewrite Hdelhi in Hm. injection Hm as <-. exact Hnm.
Defined.

(** ** [add_state_labels]: errors, and calls in sequence *)
Section StateLabelsSequence.
Context {Body : Type}.
Variable int_of_string : string -> option Z.

Local Abbreviation labels := (MapVisualizer.add_state_labels (Body:=Body) int_of_string).
Local Abbreviation loop := (MapVisualizer.label_rows (Body:=Body) int_of_string).

(** The loop over two runs of rows is the loop over the first, then over the
    second from the figure the first leaves, unless the first raises. *)
Lemma label_rows_app (location : option nat) (rs1 rs2 : list (list value))
    (offset_x offset_y : Q) :
  forall fig : Figure Body,
    loop location (rs1 ++ rs2) offset_x offset_y fig
    = match loop location rs1 offset_x offset_y fig with
      | Returned fig1 => loop location rs2 offset_x offset_y fig1
      | Raised e fig1 => Raised e fig1
      end.
Proof.
  induction rs1 as [|row rs1 IH]; intros fig; [reflexivity|].
  simpl. destruct location as [i|]; [|reflexivity].
  destruct (MapVisualizer.lookup_state (cell i row)) as [[state [lat lon]]|]; [|apply IH].
  destruct (row !! 1%nat) as [v|]; [|reflexivity].
  destruct (MapVisualizer.py_int int_of_string v) as [n|e]; [apply IH|reflexivity].
Qed.

(** X13. A table without rows: the call returns the figure as it was, whether
    the table has a column ['Location'] or not.  A table without a column
    ['Location']: the call raises [KeyError] at the first row and leaves the
    figure as it was, and returns it when there is no row. *)
Theorem add_state_labels_missing_location (fig : Figure Body) (state_data : DataFrame)
    (offset_x offset_y : Q) :
  (rows state_data = [] ->
   labels fig state_data offset_x offset_y = Returned fig) /\
  (column_index "Location" (columns state_data) = None ->
   labels fig state_data offset_x offset_y
   = match rows state_data with
     | [] => Returned fig
     | _ :: _ => Raised (KeyError "Location") fig
     end).
Proof.
  unfold MapVisualizer.add_state_labels. split.
  - intros ->. reflexivity.
  - intros Hloc. rewrite Hloc. destruct (rows state_data); reflexivity.
Qed.

(** X14. When [int] refuses the value of a row of a known state, the call
    raises at that row, and the figure keeps the annotations added for the
    rows before it: the figure is updated in place, an exception does not
    take the labels back. *)
Theorem add_state_labels_raises_midway (fig : Figure Body) (cols : list string)
    (before after : list (list value)) (bad : list value)
    (offset_x offset_y : Q) (i : nat) :
  column_index "Location" cols = Some i ->
  Forall (fun row => recognized i row = true -> has_integer_metric int_of_string row = true)
         before ->
  recognized i bad = true ->
  has_integer_metric int_of_string bad = false ->
  exists e,
    labels fig {| columns := cols; rows := before ++ bad :: after |} offset_x offset_y
    = Raised e {| body := body fig;
                  annotations := annotations fig
                    ++ omap (expected_label int_of_string i offset_x offset_y) before |}.
Proof.
  intros Hloc Hbefore Hrec Hbad. unfold MapVisualizer.add_state_labels. simpl.
  rewrite Hloc, label_rows_app.
  rewrite (label_rows_returns int_of_string i before offset_x offset_y Hbefore).
  simpl. unfold recognized in Hrec. unfold has_integer_metric in Hbad.
  destruct (MapVisualizer.lookup_state (cell i bad)) as [[state [lat lon]]|]; [|discriminate].
  destruct (bad !! 1%nat) as [v|]; [|eexists; reflexivity].
  destruct (MapVisualizer.py_int int_of_string v) as [n|e]; [discriminate|].
  eexists. reflexivity.
Qed.

(** X15. Labelling a table made of the rows of two tables is labelling the
    first and then, on the figure it returns, the second; when the first
    raises, the second is not looked at. *)
Theorem add_state_labels_append (fig : Figure Body) (cols : list string)
    (rs1 rs2 : list (list value)) (offset_x offset_y : Q) :
  labels fig {| columns := cols; rows := rs1 ++ rs2 |} offset_x offset_y
  = match labels fig {| columns := cols; rows := rs1 |} offset_x offset_y with
    | Returned fig1 => labels fig1 {| columns := cols; rows := rs2 |} offset_x offset_y
    | Raised e fig1 => Raised e fig1
    end.
Proof. unfold MapVisualizer.add_state_labels. simpl. apply label_rows_app. Qed.

Lemma label_rows_extends (location : option nat) (rs : list (list value))
    (offset_x offset_y : Q) :
  forall fig : Figure Body,
    exists added,
      body (figure_of (loop location rs offset_x offset_y fig)) = body fig /\
      annotations (figure_of (loop location rs offset_x offset_y fig))
        = (annotations fig ++ added)%list /\
      (length added <= length rs)%nat.
Proof.
  induction rs as [|row rs IH]; intros fig.
  - exists []. simpl. rewrite app_nil_r. repeat split. lia.
  - assert (Hstop : forall e, exists added,
              body (figure_of (Raised e fig)) = body fig /\
              annotations (figure_of (Raised e fig)) = (annotations fig ++ added)%list /\
              (length added <= length (row :: rs))%nat).
    { intros e. exists []. simpl. rewrite app_nil_r. repeat split. lia. }
    assert (Hskip : exists added,
              body (figure_of (loop location rs offset_x offset_y fig)) = body fig /\
              annotations (figure_of (loop location rs offset_x offset_y fig))
                = (annotations fig ++ added)%list /\
              (length added <= length (row :: rs))%nat).
    { destruct (IH fig) as (added & H1 & H2 & H3). exists added.
      repeat split; try assumption. simpl. lia. }
    simpl. destruct location as [i|]; [|apply Hstop].
    destruct (MapVisualizer.lookup_state (cell i row)) as [[state [lat lon]]|]; [|exact Hskip].
    destruct (row !! 1%nat) as [v|]; [|apply Hstop].
    destruct (MapVisualizer.py_int int_of_string v) as [n|e]; [|apply Hstop].
    destruct (IH (add_annotation
                    (MapVisualizer.state_label state lat lon n offset_x offset_y) fig))
      as (added & H1 & H2 & H3).
    exists (MapVisualizer.state_label state lat lon n offset_x offset_y :: added).
    split; [exact H1|]. split.
    + rewrite H2. simpl. rewrite <- app_assoc. reflexivity.
    + simpl. lia.
Qed.

(** X16. Whatever the table and however the call ends, returning or raising,
    the figure it ends with has the annotations it had, in their order,
    followed by at most one new annotation for each row; nothing else of the
    figure changes. *)
Theorem add_state_labels_only_adds (fig : Figure Body) (state_data : DataFrame)
    (offset_x offset_y : Q) :
  exists added,
    body (figure_of (labels fig state_data offset_x offset_y)) = body fig /\
    annotations (figure_of (labels fig state_data offset_x offset_y))
      = (annotations fig ++ added)%list /\
    (length added <= length (rows state_data))%nat.
Proof. unfold MapVisualizer.add_state_labels. apply label_rows_extends. Qed.

End StateLabelsSequence.

Lemma add_state_labels_missing_location_witness :
  MapVisualizer.add_state_labels Samples.no_literal Samples.empty_figure
    {| columns := ["Location"; "Count"]; rows := [] |} 0 0
  = Returned Samples.empty_figure /\
  MapVisualizer.add_state_labels Samples.no_literal Samples.empty_figure
    {| columns := ["loc"; "fine"]; rows := [] |} 0 0
  = Returned Samples.empty_figure /\
  MapVisualizer.add_state_labels Samples.no_literal Samples.empty_figure
    Samples.fines 0 0 = Raised (KeyError "Location") Samples.empty_figure.
Proof.
  split; [|split].
  - apply (proj1 (add_state_labels_missing_location Samples.no_literal
                    Samples.empty_figure
                    {| columns := ["Location"; "Count"]; rows := [] |} 0 0)).
    reflexivity.
  - apply (proj1 (add_state_labels_missing_location Samples.no_literal
                    Samples.empty_figure
                    {| columns := ["loc"; "fine"]; rows := [] |} 0 0)).
    reflexivity.
  - apply (proj2 (add_state_labels_missing_location Samples.no_literal
                    Samples.empty_figure Samples.fines 0 0)).
    reflexivity.
Defined.

Lemma add_state_labels_raises_midway_witness :
  exists e fig',
    MapVisualizer.add_state_labels Samples.no_literal Samples.empty_figure
      {| columns := ["Location"; "Fine_Amount_Avg"];
         rows := [ [VStr "Delhi"; VNum 1234]; [VStr "Punjab"; VNull];
                   [VStr "Assam"; VNum 3] ] |} 0 0
    = Raised e fig' /\
    length (annotations fig') = 1%nat.
Proof.
  destruct (add_state_labels_raises_midway Samples.no_literal Samples.empty_figure
              ["Location"; "Fine_Amount_Avg"]
              [ [VStr "Delhi"; VNum 1234] ] [ [VStr "Assam"; VNum 3] ]
              [VStr "Punjab"; VNull] 0 0 0%nat eq_refl) as (e & He).
  - repeat constructor.
  - reflexivity.
  - reflexivity.
  - exists e. eexists. split; [exact He|]. reflexivity.
Defined.

(** ** From counts to labels *)
Section CountLabels.
Context {Body : Type}.
Variable reduce_object : reduction -> list value -> list value -> Result value.
Variable int_of_string : string -> option Z.

Lemma expected_label_count (i : nat) (df : DataFrame) (offset_x offset_y : Q) (k : value) :
  expected_label int_of_string 0 offset_x offset_y
    [k; VNum (inject_Z (Z.of_nat (location_count i df k)))]
  = count_label i df offset_x offset_y k.
Proof.
  unfold expected_label, count_label.
  change (cell 0 [k; VNum (inject_Z (Z.of_nat (location_count i df k)))]) with k.
  destruct (MapVisualizer.lookup_state k) as [[state [lat lon]]|]; [|reflexivity].
  simpl. rewrite Z.quot_1_r. reflexivity.
Qed.

Lemma omap_count_labels (i : nat) (df : DataFrame) (offset_x offset_y : Q)
    (keys : list value) :
  omap (expected_label int_of_string 0 offset_x offset_y)
       (map (fun k => [k; VNum (inject_Z (Z.of_nat (location_count i df k)))]) keys)
  = omap (count_label i df offset_x offset_y) keys.
Proof.
  induction keys as [|k keys IH]; [reflexivity|].
  change (omap (expected_label int_of_string 0 offset_x offset_y)
            (map (fun k => [k; VNum (inject_Z (Z.of_nat (location_count i df k)))])
                 (k :: keys)))
    with (match expected_label int_of_string 0 offset_x offset_y
                  [k; VNum (inject_Z (Z.of_nat (location_count i df k)))] with
          | Some a => a :: omap (expected_label int_of_string 0 offset_x offset_y)
                             (map (fun k => [k; VNum (inject_Z (Z.of_nat (location_count i df k)))])
                                  keys)
          | None => omap (expected_label int_of_string 0 offset_x offset_y)
                         (map (fun k => [k; VNum (inject_Z (Z.of_nat (location_count i df k)))])
                              keys)
          end).
  rewrite expected_label_count, IH. reflexivity.
Qed.

(** X17. The counts by ['Location'] of any table can be put on a figure:
    [add_state_labels] on the table [aggregate_by_location] returns in mode
    "count" raises nothing, and adds, in the order of the locations, one
    annotation for each location that is a state of the coordinate table,
    carrying the number of rows of that location. *)
Theorem count_then_labels (df : DataFrame) (metric_column : string) (i : nat)
    (fig : Figure Body) (offset_x offset_y : Q) :
  column_index "Location" (columns df) = Some i ->
  exists state_data fig',
    MapVisualizer.aggregate_by_location reduce_object df "Location" metric_column "count"
      = Ok state_data /\
    MapVisualizer.add_state_labels int_of_string fig state_data offset_x offset_y
      = Returned fig' /\
    body fig' = body fig /\
    annotations fig'
      = (annotations fig
         ++ omap (count_label i df offset_x offset_y) (group_keys (get_column i df)))%list.
Proof.
  intros Hi. eexists _, _. split.
  { apply (aggregate_count reduce_object df "Location" metric_column i Hi). discriminate. }
  split.
  { unfold MapVisualizer.add_state_labels.
    change (column_index "Location" (columns {| columns := ["Location"; "Count"];
              rows := map (fun k => [k; VNum (inject_Z (Z.of_nat (location_count i df k)))])
                          (group_keys (get_column i df)) |})) with (Some 0%nat).
    apply label_rows_returns. rewrite List.Forall_forall.
    intros row Hrow _. simpl in Hrow. apply in_map_iff in Hrow.
    destruct Hrow as (k & <- & _). reflexivity. }
  split; [reflexivity|].
  simpl. rewrite omap_count_labels. reflexivity.
Qed.

End CountLabels.

Lemma count_then_labels_witness :
  exists state_data fig',
    MapVisualizer.aggregate_by_location Samples.refuse_objects Samples.violations
      "Location" "Fine_Amount" "count" = Ok state_data /\
    MapVisualizer.add_state_labels Samples.no_literal Samples.empty_figure state_data 0 0
      = Returned fig' /\
    map Annotation.text (annotations fig')
      = [ "<b style='color:#94FEFE;font-size:16px'>DE</b><br><span style='color:#80FAD6;font-size:12px'>2</span>";
          "<b style='color:#94FEFE;font-size:16px'>PU</b><br><span style='color:#80FAD6;font-size:12px'>1</span>" ].
Proof.
  destruct (count_then_labels Samples.refuse_objects Samples.no_literal Samples.violations
              "Fine_Amount" 1%nat Samples.empty_figure 0 0 eq_refl)
    as (state_data & fig' & Hagg & Hlab & _ & Hann).
  exists state_data, fig'. split; [exact Hagg|]. split; [exact Hlab|].
  rewrite Hann. reflexivity.
Defined.

(** ** [load_geojsons]: every outside world *)
Section GeojsonsAlways.
Variable Json : Type.
Variable http_get_json : string -> Result Json.
Variable read_json_file : string -> Result Json.

Local Abbreviation load := (MapVisualizer.load_geojsons Json http_get_json read_json_file).


End GeojsonsAlways.

(** ** [create_comparison_table] *)

Lemma column_index_None (c : string) (cols : list string) :
  column_index c cols = None <-> ~ In c cols.
Proof.
  induction cols as [|c' cols IH]; simpl; [tauto|].
  destruct (String.eqb_spec c c') as [->|Hne].
  - split; [discriminate|]. intros H. exfalso. apply H. left. reflexivity.
  - destruct (column_index c cols) as [p|]; simpl.
    + split; [discriminate|]. intros H. exfalso. apply H. right.
      destruct (in_dec string_dec c cols) as [Hin|Hout]; [exact Hin|].
      apply IH in Hout. discriminate.
    + split; [|reflexivity]. intros _ [E|Hin]; [congruence|].
      apply (proj1 IH); [reflexivity|exact Hin].
Qed.

Section ComparisonTable.
Variable sort_rows : nat -> bool -> list (list value) -> Result (list (list value)).

Local Abbreviation table := (MapVisualization.create_comparison_table sort_rows).
Local Abbreviation position_of :=
  (fun (df : DataFrame) (c : string) =>
     match column_index c (columns df) with
     | Some i => Ok i
     | None => Raise (KeyError c)
     end).

Lemma positions_found (df : DataFrame) (names : list string) :
  (forall c, In c names -> In c (columns df)) ->
  exists positions,
    mapM (position_of df) names = Ok positions /\
    Forall2 (fun c p => column_index c (columns df) = Some p) names positions.
Proof.
  induction names as [|c names IH]; intros Hall.
  - exists []. split; [reflexivity|constructor].
  - destruct IH as (positions & Hm & Hf); [intros c' Hc'; apply Hall; right; exact Hc'|].
    destruct (column_index c (columns df)) as [p|] eqn:E.
    + exists (p :: positions). split; [|constructor; assumption].
      simpl. rewrite E. simpl. rewrite Hm. reflexivity.
    + exfalso. apply column_index_None in E. apply E. apply Hall. left. reflexivity.
Qed.

Lemma positions_missing (df : DataFrame) (names : list string) :
  (exists c, In c names /\ ~ In c (columns df)) ->
  exists c, mapM (position_of df) names = Raise (KeyError c) /\
            In c names /\ ~ In c (columns df).
Proof.
  induction names as [|c names IH]; intros (c0 & Hin & Hout); [destruct Hin|].
  destruct (column_index c (columns df)) as [p|] eqn:E.
  - destruct Hin as [->|Hin].
    + exfalso. apply column_index_None in Hout. congruence.
    + destruct IH as (c1 & Hm & Hc1 & Hc1'); [exists c0; split; assumption|].
      exists c1. split; [|split; [right; exact Hc1|exact Hc1']].
      simpl. rewrite E. simpl. rewrite Hm. reflexivity.
  - exists c. split; [|split; [left; reflexivity|apply column_index_None; exact E]].
    simpl. rewrite E. reflexivity.
Qed.

(** X19. With a list of columns that are all columns of the table, and no
    sorting, the table returned has these columns, in the order of the list,
    and the rows of the input, in their order: the cell of a row under a name
    of the list is the cell of the input row under that name. *)
Theorem create_comparison_table_selects (df : DataFrame) (names : list string)
    (ascending : bool) :
  names <> [] ->
  (forall c, In c names -> In c (columns df)) ->
  exists out,
    table df (Some names) None ascending = Ok out /\
    columns out = names /\
    length (rows out) = length (rows df) /\
    forall n r, rows df !! n = Some r ->
      exists r', rows out !! n = Some r' /\
                 length r' = length names /\
                 forall p c q, names !! p = Some c ->
                               column_index c (columns df) = Some q ->
                               cell p r' = cell q r.
Proof.
  intros Hne Hall. destruct (positions_found df names Hall) as (positions & Hm & Hf).
  exists {| columns := names;
            rows := map (fun r => map (fun i => cell i r) positions) (rows df) |}.
  split.
  { unfold MapVisualization.create_comparison_table, MapVisualization.getitem_columns.
    destruct names as [|c names]; [congruence|]. rewrite Hm. reflexivity. }
  split; [reflexivity|]. split; [apply length_map|].
  intros n r Hn. exists (map (fun i => cell i r) positions). split.
  { simpl. change (map ?f ?l) with (f <$> l). rewrite list_lookup_fmap, Hn. reflexivity. }
  split; [rewrite length_map; symmetry; apply (Forall2_length _ _ _ Hf)|].
  intros p c q Hp Hq.
  destruct (Forall2_lookup_l _ _ _ _ _ Hf Hp) as (q' & Hq' & Hc).
  assert (q' = q) by congruence. subst q'.
  unfold cell at 1. rewrite nth_lookup.
  change (map ?f ?l) with (f <$> l). rewrite list_lookup_fmap, Hq'. reflexivity.
Qed.

(** X20. When a name of the list is no column of the table, the call raises
    [KeyError] for such a name, whatever the sorting asked for. *)
Theorem create_comparison_table_missing_column (df : DataFrame) (names : list string)
    (sort_by : option string) (ascending : bool) :
  (exists c, In c names /\ ~ In c (columns df)) ->
  exists c, table df (Some names) sort_by ascending = Raise (KeyError c) /\
            In c names /\ ~ In c (columns df).
Proof.
  intros Hmiss. destruct (positions_missing df names Hmiss) as (c & Hm & Hc).
  exists c. split; [|exact Hc].
  unfold MapVisualization.create_comparison_table, MapVisualization.getitem_columns.
  destruct names as [|c0 names]; [destruct Hc as [[] _]|]. rewrite Hm. reflexivity.
Qed.

(** X21. The table is sorted after its columns have been selected: sorting by
    a column that is not in the list raises [KeyError] for it, even when it is
    a column of the input. *)
Theorem create_comparison_table_sort_after_select (df : DataFrame) (names : list string)
    (sort_by : string) (ascending : bool) :
  names <> [] ->
  (forall c, In c names -> In c (columns df)) ->
  sort_by <> EmptyString ->
  ~ In sort_by names ->
  table df (Some names) (Some sort_by) ascending = Raise (KeyError sort_by).
Proof.
  intros Hne Hall Hs Hout. destruct (positions_found df names Hall) as (positions & Hm & _).
  unfold MapVisualization.create_comparison_table, MapVisualization.getitem_columns.
  destruct names as [|c names]; [congruence|]. rewrite Hm.
  destruct sort_by as [|a s]; [congruence|].
  unfold mbind, Result_bind, mret, Result_ret, MapVisualization.sort_values.
  cbn [columns]. apply column_index_None in Hout. rewrite Hout. reflexivity.
Qed.

End ComparisonTable.

Lemma create_comparison_table_selects_witness :
  exists out,
    MapVisualization.create_comparison_table (fun _ _ rs => Ok rs) Samples.violations
      (Some ["Fine_Amount"; "Location"]) None false = Ok out /\
    rows out = [ [VNum 500; VStr "Delhi"]; [VNum 200; VStr "Punjab"];
                 [VNum 1000; VStr "Delhi"] ].
Proof.
  destruct (create_comparison_table_selects (fun _ _ rs => Ok rs) Samples.violations
              ["Fine_Amount"; "Location"] false) as (out & Hout & _).
  - discriminate.
  - intros c [<-|[<-|[]]]; simpl; tauto.
  - exists out. split; [exact Hout|].
    vm_compute in Hout. injection Hout as <-. reflexivity.
Defined.

Lemma create_comparison_table_missing_column_witness :
  exists c,
    MapVisualization.create_comparison_table (fun _ _ rs => Ok rs) Samples.violations
      (Some ["Location"; "Speed"]) (Some "Location") true = Raise (KeyError c).
Proof.
  destruct (create_comparison_table_missing_column (fun _ _ rs => Ok rs) Samples.violations
              ["Location"; "Speed"] (Some "Location") true) as (c & Hc & _).
  - exists "Speed". split; [right; left; reflexivity|].
    simpl. intuition discriminate.
  - exists c. exact Hc.
Defined.

Lemma create_comparison_table_sort_after_select_witness :
  MapVisualization.create_comparison_table (fun _ _ rs => Ok rs) Samples.violations
    (Some ["Location"; "Fine_Amount"]) (Some "Date") false = Raise (KeyError "Date").
Proof.
  apply (create_comparison_table_sort_after_select (fun _ _ rs => Ok rs) Samples.violations).
  - discriminate.
  - intros c [<-|[<-|[]]]; simpl; tauto.
  - discriminate.
  - simpl. intuition discriminate.
Defined.

(** ** [_nav_cards] *)

Lemma nav_loop_quiet (available : bool) (clicked : string -> bool)
    (cards : list (string * string)) (scroll_to : option nat) :
  forall i,
    (forall n, (n < length cards)%nat -> clicked (MapVisualization.nav_key (i + n)) = false) ->
    MapVisualization.nav_loop available clicked i cards scroll_to
    = (nav_buttons i cards, scroll_to, MapVisualization.Finished).
Proof.
  induction cards as [|card cards IH]; intros i Hquiet; [reflexivity|].
  simpl. pose proof (Hquiet 0%nat) as H0. rewrite Nat.add_0_r in H0.
  rewrite H0 by (simpl; lia). rewrite IH; [reflexivity|].
  intros n Hn. replace (S i + n)%nat with (i + S n)%nat by lia.
  apply Hquiet. simpl. lia.
Qed.

Lemma nav_loop_click (available : bool) (clicked : string -> bool)
    (cards : list (string * string)) (scroll_to : option nat) :
  forall i n,
    (n < length cards)%nat ->
    clicked (MapVisualization.nav_key (i + n)) = true ->
    (forall m, (m < n)%nat -> clicked (MapVisualization.nav_key (i + m)) = false) ->
    MapVisualization.nav_loop available clicked i cards scroll_to
    = (take (S n) (nav_buttons i cards), Some (i + n)%nat,
       MapVisualization.experimental_rerun available).
Proof.
  induction cards as [|card cards IH]; intros i n Hn Hclick Hquiet; [simpl in Hn; lia|].
  destruct n as [|n].
  - simpl. rewrite Nat.add_0_r in Hclick. rewrite Hclick, Nat.add_0_r.
    destruct cards; reflexivity.
  - simpl MapVisualization.nav_loop.
    pose proof (Hquiet 0%nat) as H0. rewrite Nat.add_0_r in H0.
    rewrite H0 by lia.
    rewrite (IH (S i) n).
    + replace (S i + n)%nat with (i + S n)%nat by lia. reflexivity.
    + simpl in Hn. lia.
    + replace (S i + n)%nat with (i + S n)%nat by lia. exact Hclick.
    + intros m Hm. replace (S i + m)%nat with (i + S m)%nat by lia. apply Hquiet. lia.
Qed.

(** X22. When no card is clicked, the eight buttons are drawn, no rerun is
    asked for, so that the function returns whether or not Streamlit still
    has [experimental_rerun], and [scroll_to] is what the session had, [None]
    when it had nothing yet. *)
Theorem nav_cards_quiet (available : bool) (clicked : string -> bool)
    (session : option (option nat)) :
  (forall i, (i < 8)%nat -> clicked (MapVisualization.nav_key i) = false) ->
  MapVisualization._nav_cards available clicked session
  = (MapVisualization.Columns 8 :: nav_buttons 0 MapVisualization.nav_cards,
     match session with
     | Some (Some i) => Some i
     | _ => None
     end,
     MapVisualization.Finished).
Proof.
  intros Hquiet. unfold MapVisualization._nav_cards.
  rewrite nav_loop_quiet by (intros n Hn; apply Hquiet; exact Hn).
  destruct session as [[i|]|]; reflexivity.
Qed.

(** X23. When a card is clicked, [scroll_to] becomes the number of the first
    card clicked and the function ends there, at the call of
    [st.experimental_rerun]: with the rerun of the script where Streamlit has
    that function, with [AttributeError] where it has not.  Either way the
    buttons of the cards after the clicked one are not drawn in this run. *)
Theorem nav_cards_click (available : bool) (clicked : string -> bool)
    (session : option (option nat)) (i : nat) :
  (i < 8)%nat ->
  clicked (MapVisualization.nav_key i) = true ->
  (forall j, (j < i)%nat -> clicked (MapVisualization.nav_key j) = false) ->
  MapVisualization._nav_cards available clicked session
  = (MapVisualization.Columns 8 :: take (S i) (nav_buttons 0 MapVisualization.nav_cards),
     Some i,
     if available then MapVisualization.Rerun else MapVisualization.AttributeError).
Proof.
  intros Hi Hclick Hquiet. unfold MapVisualization._nav_cards.
  rewrite (nav_loop_click available clicked MapVisualization.nav_cards _ 0%nat i
             Hi Hclick Hquiet).
  reflexivity.
Qed.

Lemma nav_cards_quiet_witness :
  MapVisualization._nav_cards false (fun _ => false) (Some (Some 3%nat))
  = (MapVisualization.Columns 8 :: nav_buttons 0 MapVisualization.nav_cards,
     Some 3%nat, MapVisualization.Finished).
Proof.
  apply (nav_cards_quiet false (fun _ => false) (Some (Some 3%nat))).
  intros i _. reflexivity.
Defined.

Lemma nav_cards_click_witness :
  MapVisualization._nav_cards false
    (fun key => String.eqb key "nav_2" || String.eqb key "nav_5") None
  = (MapVisualization.Columns 8 :: take 3 (nav_buttons 0 MapVisualization.nav_cards),
     Some 2%nat, MapVisualization.AttributeError).
Proof.
  apply (nav_cards_click false
           (fun key => String.eqb key "nav_2" || String.eqb key "nav_5") None 2%nat).
  - lia.
  - reflexivity.
  - intros j Hj. destruct j as [|[|j]]; [reflexivity|reflexivity|lia].
Defined.

(** ** The script of [main.py] *)


Lemma filter_not_style_render (calls : list Main.call) :
  List.filter (fun ev => negb (is_style ev)) (map Script.Render calls)
  = map Script.Render calls.
Proof. induction calls as [|c calls IH]; simpl; [reflexivity|]. rewrite IH. reflexivity. Qed.

(** X24. A stylesheet that cannot be read changes nothing but the
    stylesheet: the run makes the calls it makes with a stylesheet, the one
    that injects the style left out, ends the same way and leaves the same
    store; in particular the same page is rendered. *)
Theorem run_without_stylesheet (w : Script.world) (h : heap) (e : exn) (css : string) :
  Script.read_css w = Raise e ->
  let w' := {| Script.read_csv := Script.read_csv w;
               Script.apply_theme := Script.apply_theme w;
               Script.read_css := Ok css;
               Script.selected := Script.selected w |} in
  fst (fst (Script.run w h))
    = List.filter (fun ev => negb (is_style ev)) (fst (fst (Script.run w' h))) /\
  snd (fst (Script.run w h)) = snd (fst (Script.run w' h)) /\
  snd (Script.run w h) = snd (Script.run w' h).
Proof.
  intros Hcss. unfold Script.run. simpl. rewrite Hcss.
  destruct (Script.read_csv w) as [table|e1]; simpl; [|repeat split].
  destruct (Script.apply_theme w) as [u|e2]; simpl; [|repeat split].
  repeat split. rewrite filter_not_style_render. reflexivity.
Qed.


Lemma run_without_stylesheet_witness :
  fst (fst (Script.run {| Script.read_csv := Ok Samples.violations;
                          Script.apply_theme := Ok tt;
                          Script.read_css := Raise (OSError "FileNotFoundError");
                          Script.selected := "Report" |} ∅))
  = [ Script.SetPageConfig; Script.ApplyTheme; Script.BootstrapIcons;
      Script.SidebarToggleScript; Script.SidebarRadio Main.navigation;
      Script.SidebarDivider;
      Script.SidebarCaption "Smart Traffic Violation Pattern Detector";
      Script.Render (Main.App "views._9_Report" 1%positive) ].
Proof.
  destruct (run_without_stylesheet
              {| Script.read_csv := Ok Samples.violations;
                 Script.apply_theme := Ok tt;
                 Script.read_css := Raise (OSError "FileNotFoundError");
                 Script.selected := "Report" |} ∅ (OSError "FileNotFoundError")
              "body {}" eq_refl) as (Hevents & _ & _).
  rewrite Hevents. vm_compute. reflexivity.
Defined.

